(** * Event-ingest pipeline of the Telegram NFT market monitor

    A shallow embedding of [telegram_nft_monitor.py] (class
    [TelegramNFTMonitor]) and of the constants of [config.py] it reads.

    Modelling conventions.
    - Python [str] is [string] (UTF-8 bytes, so that the lexicographic
      byte order of [String.ltb] is Python's code-point order).
    - Python [float] is modelled by the rational it denotes ([Q]); rounding
      is not modelled.
    - A [dict] is a [gmap], a [set] is a [gset].
    - A call that may raise returns [option]: [None] is "raised".
    - Library functions whose full behaviour is outside the repository
      ([float], [datetime.fromisoformat], [date.isoformat]), the message
      formatter and the chat transport are Section variables; concrete
      instances used by the examples are in [Module Fixture].
    - Side effects (chat sends, sleeps, pins, HTTP requests, snapshot
      writes) are recorded in a trace, a list of [effect]. *)

From Stdlib Require Import QArith Qabs Qround Qminmax OrderedTypeEx Ascii.
From stdpp Require Import gmap strings list fin_maps pretty.

Local Open Scope string_scope.
Local Open Scope list_scope.
Local Open Scope stdpp_scope.

(** ** config.py *)

Module config.
Definition MAX_MESSAGES_PER_MINUTE : nat := 8.
Definition MAX_MESSAGES_PER_HOUR : nat := 150.
Definition REQUEST_TIMEOUT : Z := 15.
Definition RETRY_ATTEMPTS : nat := 2.
Definition CHECK_INTERVAL : Q := 5.
Definition PRICE_CHANGE_THRESHOLD : Q := 1 # 100.
Definition DUPLICATE_MEMORY_HOURS : Z := 24.
Definition PIN_MESSAGE_THRESHOLD : Q := 100.
Definition MAX_CONSECUTIVE_FAILURES : nat := 10.
Definition MAX_DAILY_MESSAGES : nat := 2000.
End config.

(** ** Data model *)

(** A JSON scalar as the API may deliver [external_collection_number]. *)
Inductive jscalar :=
  | JInt (z : Z)
  | JStr (s : string).

(** One element of the API's [actions] array; the [nft] object is
    flattened into the [nft_*] fields. *)
Record action := {
  act_type : string;
  amount : string;
  created_at : string;
  nft_id : string;
  nft_name : string;
  external_collection_number : jscalar
}.

(** A value of the [price_history] dict. *)
Record price_record := {
  price : Q;
  timestamp : string;
  pr_action_id : string;
  pr_name : string;
  pr_external_number : jscalar;
  enhanced_key : string
}.

(** A [datetime]: wall-clock seconds since the epoch and, for an aware
    value, its UTC offset in seconds. *)
Record datetime := {
  wall : Q;
  utcoffset : option Q
}.

(** The content of [monitor_state.json]; a key may be missing. *)
Record snapshot := {
  s_seen_actions : option (list string);
  s_price_history : option (gmap string price_record);
  s_last_check_time : option (option string);
  s_daily_message_count : option Z;
  s_last_daily_reset : option string
}.

(** The fields of [TelegramNFTMonitor] the pipeline reads or writes.
    Dates are day numbers, naive datetimes are wall-clock seconds. *)
Record monitor := {
  seen_actions : gset string;
  price_history : gmap string price_record;
  last_check_time : option string;
  initial_batch_sent : bool;
  last_processed_timestamp : option string;
  waiting_for_new_sales : bool;
  message_timestamps : list Q;
  daily_message_count : Z;
  last_daily_reset : Z
}.

Definition set_seen_actions (v : gset string) (m : monitor) : monitor :=
  {| seen_actions := v; price_history := price_history m;
     last_check_time := last_check_time m;
     initial_batch_sent := initial_batch_sent m;
     last_processed_timestamp := last_processed_timestamp m;
     waiting_for_new_sales := waiting_for_new_sales m;
     message_timestamps := message_timestamps m;
     daily_message_count := daily_message_count m;
     last_daily_reset := last_daily_reset m |}.

Definition set_price_history (v : gmap string price_record) (m : monitor) : monitor :=
  {| seen_actions := seen_actions m; price_history := v;
     last_check_time := last_check_time m;
     initial_batch_sent := initial_batch_sent m;
     last_processed_timestamp := last_processed_timestamp m;
     waiting_for_new_sales := waiting_for_new_sales m;
     message_timestamps := message_timestamps m;
     daily_message_count := daily_message_count m;
     last_daily_reset := last_daily_reset m |}.

Definition set_last_check_time (v : option string) (m : monitor) : monitor :=
  {| seen_actions := seen_actions m; price_history := price_history m;
     last_check_time := v;
     initial_batch_sent := initial_batch_sent m;
     last_processed_timestamp := last_processed_timestamp m;
     waiting_for_new_sales := waiting_for_new_sales m;
     message_timestamps := message_timestamps m;
     daily_message_count := daily_message_count m;
     last_daily_reset := last_daily_reset m |}.

Definition set_initial_batch_sent (v : bool) (m : monitor) : monitor :=
  {| seen_actions := seen_actions m; price_history := price_history m;
     last_check_time := last_check_time m;
     initial_batch_sent := v;
     last_processed_timestamp := last_processed_timestamp m;
     waiting_for_new_sales := waiting_for_new_sales m;
     message_timestamps := message_timestamps m;
     daily_message_count := daily_message_count m;
     last_daily_reset := last_daily_reset m |}.

Definition set_last_processed_timestamp (v : option string) (m : monitor) : monitor :=
  {| seen_actions := seen_actions m; price_history := price_history m;
     last_check_time := last_check_time m;
     initial_batch_sent := initial_batch_sent m;
     last_processed_timestamp := v;
     waiting_for_new_sales := waiting_for_new_sales m;
     message_timestamps := message_timestamps m;
     daily_message_count := daily_message_count m;
     last_daily_reset := last_daily_reset m |}.

Definition set_waiting_for_new_sales (v : bool) (m : monitor) : monitor :=
  {| seen_actions := seen_actions m; price_history := price_history m;
     last_check_time := last_check_time m;
     initial_batch_sent := initial_batch_sent m;
     last_processed_timestamp := last_processed_timestamp m;
     waiting_for_new_sales := v;
     message_timestamps := message_timestamps m;
     daily_message_count := daily_message_count m;
     last_daily_reset := last_daily_reset m |}.

Definition set_message_timestamps (v : list Q) (m : monitor) : monitor :=
  {| seen_actions := seen_actions m; price_history := price_history m;
     last_check_time := last_check_time m;
     initial_batch_sent := initial_batch_sent m;
     last_processed_timestamp := last_processed_timestamp m;
     waiting_for_new_sales := waiting_for_new_sales m;
     message_timestamps := v;
     daily_message_count := daily_message_count m;
     last_daily_reset := last_daily_reset m |}.

Definition set_daily (count : Z) (reset : Z) (m : monitor) : monitor :=
  {| seen_actions := seen_actions m; price_history := price_history m;
     last_check_time := last_check_time m;
     initial_batch_sent := initial_batch_sent m;
     last_processed_timestamp := last_processed_timestamp m;
     waiting_for_new_sales := waiting_for_new_sales m;
     message_timestamps := message_timestamps m;
     daily_message_count := count;
     last_daily_reset := reset |}.

(** ** Effects *)

(** What a chat send finally answers once the transport has stopped
    asking to retry: a message handle, [TelegramAPIError], or another
    exception. *)
Inductive final_answer :=
  | FHandle (message_id : Z)
  | FApiError
  | FOther.

(** The transport's answers to one call of [send_telegram_message]: the
    [retry_after] durations of the attempts answered by
    [TelegramRetryAfter], then the answer to the last attempt. *)
Record send_script := {
  retries : list Q;
  final : final_answer
}.

Inductive effect :=
  | ENotify (a : action)       (* control enters send_single_notification(a) *)
  | ESend (body : string)      (* bot.send_message(text=body) *)
  | EPin (message_id : Z)      (* bot.pin_chat_message *)
  | ESleep (d : Q)             (* asyncio.sleep(d) *)
  | EGet (timeout : Z)         (* session.get(..., timeout=ClientTimeout(total=timeout)) *)
  | ERefreshToken              (* extract_fresh_token() *)
  | ESave (s : snapshot).      (* json.dump to monitor_state.json *)

Abbreviation trace := (list effect).

(** ** String helpers *)

(** [needle in haystack] of Python, on strings. *)
Fixpoint str_contains (haystack needle : string) : bool :=
  String.prefix needle haystack ||
  match haystack with
  | EmptyString => false
  | String _ rest => str_contains rest needle
  end.

(** [s.replace('Z', '+00:00')]. *)
Fixpoint replace_Z (s : string) : string :=
  match s with
  | EmptyString => EmptyString
  | String c rest =>
      if Ascii.eqb c "Z"%char then "+00:00" +:+ replace_Z rest
      else String c (replace_Z rest)
  end.

(** [f"{v}"] for a JSON scalar. *)
Definition jscalar_str (v : jscalar) : string :=
  match v with
  | JInt z => pretty z
  | JStr s => s
  end.

(** [v in s] for a JSON scalar [v] and a string [s]; an [int] on the left
    raises [TypeError]. *)
Definition jscalar_in (v : jscalar) (s : string) : option bool :=
  match v with
  | JInt _ => None
  | JStr x => Some (str_contains s x)
  end.

(** [a < b] on floats. *)
Definition Qlt_bool (a b : Q) : bool := negb (Qle_bool b a).

(** [f"{action['nft']['id']}_{action['created_at']}_{action['amount']}"] *)
Definition action_id (a : action) : string :=
  nft_id a +:+ "_" +:+ created_at a +:+ "_" +:+ amount a.

(** [d1 - d2] on datetimes, as [total_seconds()]; mixing a naive and an
    aware value raises [TypeError]. *)
Definition datetime_sub (d1 d2 : datetime) : option Q :=
  match utcoffset d1, utcoffset d2 with
  | Some o1, Some o2 => Some ((wall d1 - o1) - (wall d2 - o2))%Q
  | None, None => Some (wall d1 - wall d2)%Q
  | _, _ => None
  end.

(** [d.date()] as a day number. *)
Definition datetime_date (d : datetime) : Z := Qfloor (wall d / 86400).

(** ** The monitor *)

Section Monitor.

(** [float(s)]; [None] when it raises [ValueError]. *)
Variable py_float : string -> option Q.
(** [datetime.fromisoformat(s)]; [None] when it raises [ValueError]. *)
Variable fromisoformat : string -> option datetime.
(** [d.isoformat()] for a date. *)
Variable date_isoformat : Z -> string.
(** [format_message(action)]; [None] when it raises. *)
Variable format_message : action -> option string.
(** The chat transport: its answers to the [n]-th call of
    [send_telegram_message] made by the process. *)
Variable transport : nat -> send_script.

(** *** Dedup and price tracker *)

(** The body of the [try] in [is_duplicate_or_price_change]:
    [time_diff < 300], [False] when anything in it raises. *)
Definition within_5_minutes (current_timestamp stored_timestamp : string) : bool :=
  match fromisoformat (replace_Z current_timestamp),
        fromisoformat (replace_Z stored_timestamp) with
  | Some current_dt, Some stored_dt =>
      match datetime_sub current_dt stored_dt with
      | Some diff => Qlt_bool (Qabs diff) 300
      | None => false
      end
  | _, _ => false
  end.

(** [similar_gifts]: the entries whose KEY starts with [f"{nft_name}_"]. *)
Definition similar_gifts (h : gmap string price_record) (nft_name : string)
  : list (string * price_record) :=
  filter (fun kv => String.prefix (nft_name +:+ "_") kv.1 = true) (map_to_list h).

(** The loop over [similar_gifts]: [Some true] when it returns
    [True, False], [Some false] when it falls through, [None] when
    [external_number in stored_id] raises. *)
Fixpoint scan_similar (external_number : jscalar) (current_price : Q)
    (current_timestamp : string) (l : list (string * price_record)) : option bool :=
  match l with
  | [] => Some false
  | (stored_id, data) :: rest =>
      match jscalar_in external_number stored_id with
      | None => None
      | Some found =>
          if found && Qlt_bool (Qabs (current_price - price data))
                               config.PRICE_CHANGE_THRESHOLD
          then
            if within_5_minutes current_timestamp (timestamp data)
            then Some true
            else scan_similar external_number current_price current_timestamp rest
          else scan_similar external_number current_price current_timestamp rest
      end
  end.

(** [is_duplicate_or_price_change(action)] on the price history [h]. *)
Definition is_duplicate_or_price_change (h : gmap string price_record) (a : action)
  : option (bool * bool) :=
  match py_float (amount a) with
  | None => None
  | Some current_price =>
      match h !! nft_id a with
      | Some previous_data =>
          if Qlt_bool (Qabs (current_price - price previous_data))
                      config.PRICE_CHANGE_THRESHOLD
          then Some (true, false)
          else Some (false, true)
      | None =>
          match scan_similar (external_collection_number a) current_price
                             (created_at a) (similar_gifts h (nft_name a)) with
          | None => None
          | Some true => Some (true, false)
          | Some false => Some (false, false)
          end
      end
  end.

(** [update_price_history(action, action_id)]. *)
Definition update_price_history (h : gmap string price_record) (a : action)
    (action_id : string) : option (gmap string price_record) :=
  match py_float (amount a) with
  | None => None
  | Some p =>
      Some (<[ nft_id a :=
               {| price := p;
                  timestamp := created_at a;
                  pr_action_id := action_id;
                  pr_name := nft_name a;
                  pr_external_number := external_collection_number a;
                  enhanced_key :=
                    nft_name a +:+ "_" +:+
                    jscalar_str (external_collection_number a) +:+ "_" +:+
                    nft_id a |} ]> h)
  end.

(** [cleanup_old_price_history()] at the naive local time [now]:
    [true] when the entry is put on [to_remove]. *)
Definition expired (now : Q) (data : price_record) : bool :=
  let cutoff_time := (now - inject_Z (config.DUPLICATE_MEMORY_HOURS * 3600))%Q in
  let timestamp_str := timestamp data in
  if str_contains timestamp_str "Z" || str_contains timestamp_str "+" then
    match fromisoformat (replace_Z timestamp_str) with
    | Some ts => Qlt_bool (wall ts) cutoff_time
    | None => true
    end
  else
    match fromisoformat timestamp_str with
    | Some ts =>
        match utcoffset ts with
        | None => Qlt_bool (wall ts) cutoff_time
        | Some _ => true
        end
    | None => true
    end.

Definition cleanup_old_price_history (now : Q) (m : monitor) : monitor :=
  set_price_history
    (filter (fun kv => expired now kv.2 = false) (price_history m)) m.

(** *** Rate limiter *)

(** [check_rate_limits()] at the naive local time [now]. *)
Definition check_rate_limits (now : Q) (m : monitor) : monitor * bool :=
  let today := Qfloor (now / 86400) in
  let m1 := if bool_decide (today = last_daily_reset m) then m
            else set_daily 0 today m in
  let hour_ago := (now - 3600)%Q in
  let m2 := set_message_timestamps
              (filter (fun ts => Qlt_bool hour_ago ts = true) (message_timestamps m1)) m1 in
  if (config.MAX_MESSAGES_PER_HOUR <=? length (message_timestamps m2))%nat
  then (m2, false)
  else
    let minute_ago := (now - 60)%Q in
    let recent_messages :=
      filter (fun ts => Qlt_bool minute_ago ts = true) (message_timestamps m2) in
    if (config.MAX_MESSAGES_PER_MINUTE <=? length recent_messages)%nat
    then (m2, false)
    else (m2, true).

(** *** Chat publisher *)

Inductive send_outcome :=
  | Message (message_id : Z)   (* the sent message object *)
  | ReturnedFalse              (* TelegramAPIError: returns False *)
  | SendRaised.                (* another exception propagates *)

(** [send_telegram_message(message)] against the transport's answers
    [retries] then [final]: every [TelegramRetryAfter] is slept and
    followed by the recursive call. *)
Fixpoint send_telegram_message (message : string) (retries : list Q)
    (final : final_answer) : send_outcome * trace :=
  match retries with
  | [] =>
      (match final with
       | FHandle message_id => Message message_id
       | FApiError => ReturnedFalse
       | FOther => SendRaised
       end, [ESend message])
  | retry_after :: rest =>
      let '(r, tr) := send_telegram_message message rest final in
      (r, ESend message :: ESleep retry_after :: tr)
  end.

(** [pin_message_if_high_value]: its effects; its result is unused and
    every exception of the pin call is caught. *)
Definition pin_message_if_high_value (message_id : Z) (purchase_amount : Q) : trace :=
  if Qle_bool config.PIN_MESSAGE_THRESHOLD purchase_amount
  then [EPin message_id] else [].

(** [send_single_notification(action)]; [k] counts the calls of
    [send_telegram_message] made so far. An exception anywhere in the
    body is caught and leaves the state as it is at that point. *)
Definition send_single_notification (a : action) (m : monitor) (k : nat)
  : monitor * nat * trace :=
  match is_duplicate_or_price_change (price_history m) a with
  | None => (m, k, [ENotify a])
  | Some (true, _) => (m, k, [ENotify a])
  | Some (false, _) =>
      match format_message a with
      | None => (m, k, [ENotify a])
      | Some message =>
          let '(message_obj, tr) :=
            send_telegram_message message (retries (transport k)) (final (transport k)) in
          let record tr' :=
            match update_price_history (price_history m) a (action_id a) with
            | Some h => (set_price_history h m, S k, ENotify a :: tr ++ tr')
            | None => (m, S k, ENotify a :: tr ++ tr')
            end in
          match message_obj with
          | SendRaised => (m, S k, ENotify a :: tr)
          | ReturnedFalse => record []
          | Message message_id =>
              match py_float (amount a) with
              | None => (m, S k, ENotify a :: tr)
              | Some purchase_amount =>
                  record (pin_message_if_high_value message_id purchase_amount)
              end
          end
      end
  end.

(** *** State snapshot *)

(** [save_state()]: the blob written. *)
Definition save_state (m : monitor) : snapshot :=
  {| s_seen_actions := Some (elements (seen_actions m));
     s_price_history := Some (price_history m);
     s_last_check_time := Some (last_check_time m);
     s_daily_message_count := Some (daily_message_count m);
     s_last_daily_reset := Some (date_isoformat (last_daily_reset m)) |}.

(** [load_state()] on the date [today]; [file] is the parsed content of
    [monitor_state.json], [None] when the file is missing or reading it
    raises. *)
Definition load_state (today : Z) (file : option snapshot) (m : monitor) : monitor :=
  match file with
  | None => m
  | Some data =>
      let m1 :=
        {| seen_actions := list_to_set (default [] (s_seen_actions data));
           price_history := default ∅ (s_price_history data);
           last_check_time := default None (s_last_check_time data);
           initial_batch_sent := initial_batch_sent m;
           last_processed_timestamp := last_processed_timestamp m;
           waiting_for_new_sales := waiting_for_new_sales m;
           message_timestamps := message_timestamps m;
           daily_message_count := default 0%Z (s_daily_message_count data);
           last_daily_reset := last_daily_reset m |} in
      match s_last_daily_reset data with
      | None => m1
      | Some last_reset =>
          if String.eqb last_reset "" then m1
          else
            match fromisoformat last_reset with
            | Some d =>
                if bool_decide (datetime_date d = today) then m1
                else set_daily 0 today m1
            | None => set_daily 0 today m1
            end
      end
  end.

(** [__init__]: the fresh fields, then [load_state()]. *)
Definition init (today : Z) (file : option snapshot) : monitor :=
  load_state today file
    {| seen_actions := ∅;
       price_history := ∅;
       last_check_time := None;
       initial_batch_sent := false;
       last_processed_timestamp := None;
       waiting_for_new_sales := false;
       message_timestamps := [];
       daily_message_count := 0;
       last_daily_reset := today |}.

(** *** Dispatch scheduler *)

(** The loop that builds [new_actions] and adds their ids to
    [seen_actions]. *)
Fixpoint collect_new (seen : gset string) (purchase_actions : list action)
  : list action * gset string :=
  match purchase_actions with
  | [] => ([], seen)
  | a :: rest =>
      if bool_decide (action_id a ∈ seen) then collect_new seen rest
      else
        let '(new_actions, seen') := collect_new ({[action_id a]} ∪ seen) rest in
        (a :: new_actions, seen')
  end.

(** [for action in l: await send_single_notification(action);
    await asyncio.sleep(delay)]. *)
Fixpoint send_each (delay : Q) (l : list action) (m : monitor) (k : nat)
  : monitor * nat * trace :=
  match l with
  | [] => (m, k, [])
  | a :: rest =>
      let '(m1, k1, t1) := send_single_notification a m k in
      let '(m2, k2, t2) := send_each delay rest m1 k1 in
      (m2, k2, t1 ++ ESleep delay :: t2)
  end.

(** Truth value of a Python [str | None]. *)
Definition truthy (s : option string) : bool :=
  match s with
  | None => false
  | Some s => negb (String.eqb s "")
  end.

(** [seen_actions.add] for every action of [l]. *)
Definition mark_seen (l : list action) (seen : gset string) : gset string :=
  foldl (fun s a => {[action_id a]} ∪ s) seen l.

(** [process_new_actions(actions)]. *)
Definition process_new_actions (actions : list action) (m : monitor) (k : nat)
  : monitor * nat * trace :=
  match actions with
  | [] => (m, k, [])
  | _ =>
  let purchase_actions :=
    filter (fun a => act_type a = "purchase") actions in
  match purchase_actions with
  | [] => (m, k, [])
  | _ =>
  let '(new_actions, seen) := collect_new (seen_actions m) purchase_actions in
  let m := set_seen_actions seen m in
  match new_actions with
  | [] =>
      (if waiting_for_new_sales m then m else set_waiting_for_new_sales true m, k, [])
  | first :: _ =>
      let m := if waiting_for_new_sales m
               then set_waiting_for_new_sales false m else m in
      let '(m, k, tr) :=
        if negb (initial_batch_sent m) then
          let batch_to_send := take 5 new_actions in
          let '(m, k, tr) := send_each 1 batch_to_send m k in
          let m := set_initial_batch_sent true m in
          let m := set_last_processed_timestamp (Some (created_at first)) m in
          let m := set_seen_actions (mark_seen (drop 5 new_actions) (seen_actions m)) m in
          (m, k, tr)
        else
          let truly_new_actions :=
            if truthy (last_processed_timestamp m) then
              filter (fun a =>
                        negb (String.eqb (created_at a) "") &&
                        String.ltb (default "" (last_processed_timestamp m))
                                   (created_at a) = true)
                     new_actions
            else new_actions in
          match truly_new_actions with
          | [] => (m, k, [])
          | newest :: _ =>
              let '(m, k, tr) := send_each (1 # 2) truly_new_actions m k in
              (set_last_processed_timestamp (Some (created_at newest)) m, k, tr)
          end in
      (m, k, tr ++ [ESave (save_state m)])
  end
  end
  end.

(** *** API client *)

(** What one [session.get] of [fetch_market_actions] meets. *)
Inductive http_outcome :=
  | Response (status : Z) (json : option (option (list action)))
      (* a response; [json] is [None] when [response.json()] raises,
         [Some None] when the body has no 'actions' key *)
  | RequestFailed.
      (* the request raises: network error, timeout *)

(** The [for attempt in range(self.retry_attempts)] loop from [attempt]
    on, with [remaining] iterations left; [net i] is what attempt [i]
    meets. *)
Fixpoint fetch_attempts (retry_attempts : nat) (request_timeout : Z)
    (net : nat -> http_outcome) (attempt remaining : nat)
  : option (list action) * trace :=
  match remaining with
  | O => (None, [])
  | S remaining' =>
      let next := fetch_attempts retry_attempts request_timeout net
                                 (S attempt) remaining' in
      let failed :=
        let backoff :=
          if (Z.of_nat attempt <? Z.of_nat retry_attempts - 1)%Z
          then [ESleep (inject_Z (2 ^ Z.of_nat attempt))] else [] in
        (next.1, EGet request_timeout :: backoff ++ next.2) in
      match net attempt with
      | Response status json =>
          if (status =? 200)%Z then
            match json with
            | Some data => (Some (default [] data), [EGet request_timeout])
            | None => failed
            end
          else if (status =? 401)%Z then (None, [EGet request_timeout])
          else (next.1, EGet request_timeout :: next.2)
      | RequestFailed => failed
      end
  end.

(** [fetch_market_actions()]. *)
Definition fetch_market_actions (retry_attempts : nat) (request_timeout : Z)
    (auth_token : option string) (net : nat -> http_outcome)
  : option (list action) * trace :=
  if truthy auth_token
  then fetch_attempts retry_attempts request_timeout net 0 retry_attempts
  else (None, []).

(** *** Supervisor loop *)

(** What the body of one iteration of [monitoring_loop] meets. *)
Inductive cycle_body :=
  | TokenFailed
      (* ensure_valid_token() returns False *)
  | Fetched (auth_token : option string) (net : nat -> http_outcome)
      (* ensure_valid_token() returns True and leaves self.auth_token *)
  | Raised
      (* an unexpected exception escapes ensure_valid_token() *)
  | Interrupted.
      (* KeyboardInterrupt *)

Record cycle := {
  running : bool;              (* self.running at the loop test *)
  token_age_exceeded : bool;   (* token_last_updated and age > refresh interval *)
  body : cycle_body;
  now_iso : string             (* datetime.now().isoformat() *)
}.

Record loop_state := {
  mon : monitor;
  sends : nat;
  consecutive_failures : nat;
  token_refresh_counter : nat
}.

(** Why the loop body ends in [break]. *)
Inductive break_reason :=
  | TooManyFailures     (* "Too many consecutive failures, stopping..." *)
  | KeyboardInterrupt.  (* "Shutdown requested by user" *)

Inductive loop_exit :=
  | NotRunning                    (* the loop test found self.running False *)
  | Break (reason : break_reason) (* the body ended in break *)
  | StillRunning.                 (* the listed cycles are over, the loop goes on *)

(** The local constant of [monitoring_loop]. *)
Definition max_consecutive_failures : nat := 3.

(** The cycle sleep at the end of the [try] body. *)
Definition cycle_sleep (m : monitor) : Q :=
  if waiting_for_new_sales m then 10
  else if negb (initial_batch_sent m) then 2
  else config.CHECK_INTERVAL.

(** The body of the [while] loop for one cycle: the state, the effects
    and, when the body ends in [break], the reason. *)
Definition loop_body (c : cycle) (s : loop_state)
  : loop_state * trace * option break_reason :=
  let refresh := token_age_exceeded c || (720 <=? token_refresh_counter s)%nat in
  let tr0 := if refresh then [ERefreshToken] else [] in
  let counter := if refresh then O else token_refresh_counter s in
  match body c with
  | TokenFailed =>
      let failures := S (consecutive_failures s) in
      ({| mon := mon s; sends := sends s;
          consecutive_failures := failures;
          token_refresh_counter := counter |},
       tr0 ++ [ESleep 10],
       if (max_consecutive_failures <=? failures)%nat
       then Some TooManyFailures else None)
  | Fetched auth_token net =>
      let '(actions, tr1) :=
        fetch_market_actions config.RETRY_ATTEMPTS config.REQUEST_TIMEOUT
                             auth_token net in
      let '(m, k, failures, counter, tr2) :=
        match actions with
        | Some actions =>
            let '(m, k, tr) := process_new_actions actions (mon s) (sends s) in
            (m, k, O, S counter, tr)
        | None =>
            let failures := S (consecutive_failures s) in
            if (1 <=? failures)%nat
            then (mon s, sends s, O, O, [ERefreshToken])
            else (mon s, sends s, failures, counter, [])
        end in
      let m := set_last_check_time (Some (now_iso c)) m in
      ({| mon := m; sends := k;
          consecutive_failures := failures;
          token_refresh_counter := counter |},
       tr0 ++ tr1 ++ tr2 ++ [ESleep (cycle_sleep m)],
       None)
  | Raised =>
      let failures := S (consecutive_failures s) in
      let s' := {| mon := mon s; sends := sends s;
                   consecutive_failures := failures;
                   token_refresh_counter := counter |} in
      if (max_consecutive_failures <=? failures)%nat
      then (s', tr0, Some TooManyFailures)
      else (s', tr0 ++ [ESleep (Qmin 30 (5 * inject_Z (Z.of_nat failures)))], None)
  | Interrupted =>
      ({| mon := mon s; sends := sends s;
          consecutive_failures := consecutive_failures s;
          token_refresh_counter := counter |}, tr0, Some KeyboardInterrupt)
  end.

(** [monitoring_loop()] over the cycles the environment offers, from the
    loop state [s]. *)
Fixpoint monitoring_loop_from (cycles : list cycle) (s : loop_state)
  : loop_state * trace * loop_exit :=
  match cycles with
  | [] => (s, [], StillRunning)
  | c :: rest =>
      if negb (running c) then (s, [], NotRunning)
      else
        let '(s1, tr1, stop) := loop_body c s in
        match stop with
        | Some reason => (s1, tr1, Break reason)
        | None =>
            let '(s2, tr2, reason) := monitoring_loop_from rest s1 in
            (s2, tr1 ++ tr2, reason)
        end
  end.

Definition monitoring_loop (cycles : list cycle) (m : monitor) (k : nat)
  : loop_state * trace * loop_exit :=
  monitoring_loop_from cycles
    {| mon := m; sends := k; consecutive_failures := 0; token_refresh_counter := 0 |}.

(** [run()] at the naive local time [now]: the retention purge, the
    loop, and the snapshot written by [cleanup()]. *)
Definition run (now : Q) (cycles : list cycle) (m : monitor) (k : nat)
  : loop_state * trace * loop_exit :=
  let '(s, tr, reason) := monitoring_loop cycles (cleanup_old_price_history now m) k in
  (s, tr ++ [ESave (save_state (mon s))], reason).

End Monitor.

(** ** Observations on traces *)

(** The actions handed to [send_single_notification], in order. *)
Definition notified (tr : trace) : list action :=
  omap (fun e => match e with ENotify a => Some a | _ => None end) tr.

(** The bodies passed to [bot.send_message], in order. *)
Definition sent (tr : trace) : list string :=
  omap (fun e => match e with ESend b => Some b | _ => None end) tr.

(** The durations slept, in order. *)
Definition slept (tr : trace) : list Q :=
  omap (fun e => match e with ESleep d => Some d | _ => None end) tr.

(** The timeouts of the HTTP requests, in order. *)
Definition requested (tr : trace) : list Z :=
  omap (fun e => match e with EGet t => Some t | _ => None end) tr.

(** The instants of the chat sends of a trace that starts at [t], when a
    sleep lasts its duration, a send takes [latency] and nothing else
    takes time. *)
Fixpoint send_times (latency t : Q) (tr : trace) : list Q :=
  match tr with
  | [] => []
  | ESend _ :: rest => t :: send_times latency (t + latency) rest
  | ESleep d :: rest => send_times latency (t + d) rest
  | _ :: rest => send_times latency t rest
  end.

(** The sends of [times] that fall in the window [[t - width, t]]. *)
Definition in_window (width t : Q) (times : list Q) : list Q :=
  filter (fun u => Qle_bool (t - width) u && Qle_bool u t = true) times.

(** [max] of two strings in the order of [String.ltb]. *)
Definition str_max (a b : string) : string :=
  if String.ltb a b then b else a.

(** The order in which [last_processed_timestamp] is compared: [None]
    below every string, strings by [String.ltb]. *)
Definition ts_le (a b : option string) : Prop :=
  match a, b with
  | None, _ => True
  | Some _, None => False
  | Some x, Some y => x = y \/ String.ltb x y = true
  end.

(** No ['_'] in a string. *)
Fixpoint no_underscore (s : string) : bool :=
  match s with
  | EmptyString => true
  | String c rest => negb (Ascii.eqb c "_") && no_underscore rest
  end.

(** ** Concrete instances for the examples *)

Module Fixture.

Definition digit (c : ascii) : option Z :=
  let n := Z.of_nat (nat_of_ascii c) in
  if (48 <=? n)%Z && (n <=? 57)%Z then Some (n - 48)%Z else None.

Fixpoint digits (s : string) : option (list Z) :=
  match s with
  | EmptyString => Some []
  | String c rest =>
      match digit c, digits rest with
      | Some d, Some ds => Some (d :: ds)
      | _, _ => None
      end
  end.

Definition number (ds : list Z) : Z := foldl (fun acc d => 10 * acc + d)%Z 0%Z ds.

(** The text before the first ['.'] and, when there is one, the text
    after it. *)
Fixpoint split_dot (s : string) : string * option string :=
  match s with
  | EmptyString => (EmptyString, None)
  | String c rest =>
      if Ascii.eqb c "." then (EmptyString, Some rest)
      else let '(a, b) := split_dot rest in (String c a, b)
  end.

(** [float] on unsigned decimal literals such as ["10"] and ["10.001"],
    as the exact value of the literal: prices are rationals here, and the
    rounding of binary floats is not modelled. *)
Definition py_float (s : string) : option Q :=
  let '(int_part, frac_part) := split_dot s in
  match digits int_part, digits (default EmptyString frac_part) with
  | Some di, Some df =>
      if bool_decide (di ++ df = []) then None
      else Some (Qmake (number (di ++ df)) (Z.to_pos (10 ^ Z.of_nat (length df))))
  | _, _ => None
  end.

Definition field (s : string) (start len : nat) : option Z :=
  let f := String.substring start len s in
  if bool_decide (String.length f = len)
  then number <$> digits f else None.

(** Days from 1970-01-01 to the civil date [y]-[m]-[d]. *)
Definition days_from_civil (y m d : Z) : Z :=
  let y := if (m <=? 2)%Z then (y - 1)%Z else y in
  let era := (y / 400)%Z in
  let yoe := (y - era * 400)%Z in
  let mp := ((m + 9) mod 12)%Z in
  let doy := ((153 * mp + 2) / 5 + d - 1)%Z in
  let doe := (yoe * 365 + yoe / 4 - yoe / 100 + doy)%Z in
  (era * 146097 + doe - 719468)%Z.

(** The civil date of a day number. *)
Definition civil_from_days (z : Z) : Z * Z * Z :=
  let z := (z + 719468)%Z in
  let era := (z / 146097)%Z in
  let doe := (z - era * 146097)%Z in
  let yoe := ((doe - doe / 1460 + doe / 36524 - doe / 146096) / 365)%Z in
  let doy := (doe - (365 * yoe + yoe / 4 - yoe / 100))%Z in
  let mp := ((5 * doy + 2) / 153)%Z in
  let d := (doy - (153 * mp + 2) / 5 + 1)%Z in
  let m := if (mp <? 10)%Z then (mp + 3)%Z else (mp - 9)%Z in
  let y := (yoe + era * 400 + (if (m <=? 2)%Z then 1 else 0))%Z in
  (y, m, d).

Definition two (n : Z) : string :=
  if (n <? 10)%Z then "0" +:+ pretty n else pretty n.

(** [date.isoformat()] for years of four digits. *)
Definition date_isoformat (day : Z) : string :=
  let '(y, m, d) := civil_from_days day in
  pretty y +:+ "-" +:+ two m +:+ "-" +:+ two d.

(** [datetime.fromisoformat] on [YYYY-MM-DDTHH:MM:SS], naive or followed
    by [+HH:MM] or [-HH:MM]. *)
Definition fromisoformat (s : string) : option datetime :=
  match field s 0 4, field s 5 2, field s 8 2,
        field s 11 2, field s 14 2, field s 17 2 with
  | Some y, Some mo, Some d, Some h, Some mi, Some sec =>
      let w := inject_Z (days_from_civil y mo d * 86400 + h * 3600 + mi * 60 + sec) in
      if bool_decide (String.length s = 19) then
        Some {| wall := w; utcoffset := None |}
      else if bool_decide (String.length s = 25) then
        match field s 20 2, field s 23 2 with
        | Some oh, Some om =>
            let o := inject_Z (oh * 3600 + om * 60) in
            if String.eqb (String.substring 19 1 s) "+"
            then Some {| wall := w; utcoffset := Some o |}
            else if String.eqb (String.substring 19 1 s) "-"
            then Some {| wall := w; utcoffset := Some (- o)%Q |}
            else None
        | _, _ => None
        end
      else None
  | _, _, _, _, _, _ => None
  end.

(** A formatter: the hyperlink line of [format_message]. *)
Fixpoint remove_spaces (s : string) : string :=
  match s with
  | EmptyString => EmptyString
  | String c rest =>
      if Ascii.eqb c " " then remove_spaces rest else String c (remove_spaces rest)
  end.

Definition format_message (a : action) : option string :=
  let number := jscalar_str (external_collection_number a) in
  Some ("<a href='https://t.me/nft/" +:+ remove_spaces (nft_name a) +:+ "-" +:+ number
        +:+ "'> " +:+ nft_name a +:+ " #" +:+ number +:+ "</a>").

(** A transport that accepts every message at once. *)
Definition accepting (n : nat) : send_script :=
  {| retries := []; final := FHandle (Z.of_nat n) |}.

(** A purchase of the gift [name] #[number] with collectible id [id]. *)
Definition purchase (id name : string) (number : Z) (amount created_at : string) : action :=
  {| act_type := "purchase"; amount := amount; created_at := created_at;
     nft_id := id; nft_name := name; external_collection_number := JInt number |}.

Definition today : Z := days_from_civil 2024 6 1.

End Fixture.

(** ** Scenarios *)

Module Scenario.
Import Fixture.

(** A sale already notified, and the same gift sold again 90 s later
    under a new collectible id at nearly the same price. *)
Definition stored_sale : action :=
  purchase "gift-1" "Plush Pepe" 42 "10.000" "2024-06-01T12:00:00Z".
Definition reissued_sale : action :=
  purchase "gift-2" "Plush Pepe" 42 "10.001" "2024-06-01T12:01:30Z".

End Scenario.

(** ** Vocabulary of the properties *)

(** [purchase_actions] of [process_new_actions]. *)
Definition purchases (actions : list action) : list action :=
  filter (fun a => act_type a = "purchase") actions.

(** [new_actions] of [process_new_actions]: the set N of the cycle. *)
Definition fresh (m : monitor) (actions : list action) : list action :=
  (collect_new (seen_actions m) (purchases actions)).1.

(** The events of [l] strictly newer than [last], as the steady state
    compares them. *)
Definition strictly_newer (last : string) (l : list action) : list action :=
  filter (fun a => negb (String.eqb (created_at a) "") &&
                   String.ltb last (created_at a) = true) l.

(** The set of the action ids of [l]. *)
Definition ids (l : list action) : gset string :=
  list_to_set (action_id <$> l).

(** Every field but [price_history] is the same in both states. *)
Definition same_scheduler (m m' : monitor) : Prop :=
  seen_actions m' = seen_actions m /\
  initial_batch_sent m' = initial_batch_sent m /\
  last_processed_timestamp m' = last_processed_timestamp m /\
  waiting_for_new_sales m' = waiting_for_new_sales m /\
  message_timestamps m' = message_timestamps m /\
  daily_message_count m' = daily_message_count m /\
  last_daily_reset m' = last_daily_reset m /\
  last_check_time m' = last_check_time m.

(** Between [m] and [m'] the set of seen ids only grew, and the actions
    [l] emitted in between were new for [m], pairwise distinct by id, and
    are seen in [m']. *)
Definition emits_once (m m' : monitor) (l : list action) : Prop :=
  seen_actions m ⊆ seen_actions m' /\
  NoDup (action_id <$> l) /\
  forall a, a ∈ l ->
    (action_id a ∉ seen_actions m) /\ (action_id a ∈ seen_actions m').

(** [last_processed_timestamp] is [None] until the initial batch is sent. *)
Definition no_timestamp_before_batch (m : monitor) : Prop :=
  initial_batch_sent m = false -> last_processed_timestamp m = None.

(** Between [m] and [m'] the timestamp did not decrease. *)
Definition timestamp_grows (m m' : monitor) (l : list action) : Prop :=
  no_timestamp_before_batch m ->
  no_timestamp_before_batch m' /\
  ts_le (last_processed_timestamp m) (last_processed_timestamp m').

(** [n] purchases with pairwise distinct collectible ids. *)
Definition distinct_purchases (n : nat) : list action :=
  (fun i : nat =>
     {| act_type := "purchase"; amount := "1"; created_at := "";
        nft_id := pretty i; nft_name := "gift";
        external_collection_number := JInt (Z.of_nat i) |}) <$> seq 0 n.

(** What goes to the chat when the bodies [bodies] are handed one after
    the other to [send_telegram_message], from send call [k] on: each
    body once, and once more for every [retry_after] answer. *)
Fixpoint published (transport : nat -> send_script) (k : nat) (bodies : list string)
  : list string :=
  match bodies with
  | [] => []
  | body :: rest =>
      replicate (S (length (retries (transport k)))) body ++
      published transport (S k) rest
  end.

(** No key of the history [h] is the collectible id of an action of [l]
    or starts with the gift name of one followed by ['_']. *)
Definition unrelated (h : gmap string price_record) (l : list action) : Prop :=
  forall key b, is_Some (h !! key) -> b ∈ l ->
    key <> nft_id b /\ String.prefix (nft_name b +:+ "_") key = false.

(** The attempt raises: the request fails, or a 200 body does not parse. *)
Definition raises (o : http_outcome) : bool :=
  match o with
  | RequestFailed => true
  | Response status None => (status =? 200)%Z
  | Response _ (Some _) => false
  end.

(** The attempt ends the loop: a parsed 200, or a 401. *)
Definition answers (o : http_outcome) : bool :=
  match o with
  | RequestFailed => false
  | Response status json =>
      if (status =? 200)%Z then bool_decide (is_Some json) else (status =? 401)%Z
  end.

(** The status is 401. *)
Definition unauthorized (o : http_outcome) : bool :=
  match o with
  | RequestFailed => false
  | Response status _ => negb (status =? 200)%Z && (status =? 401)%Z
  end.

(** The status is neither 200 nor 401. *)
Definition bad_status (o : http_outcome) : bool :=
  match o with
  | RequestFailed => false
  | Response status _ => negb (status =? 200)%Z && negb (status =? 401)%Z
  end.

(** [2 ** attempt] seconds. *)
Definition backoff (i : nat) : Q := inject_Z (2 ^ Z.of_nat i).

(** ** Runs of the scenarios *)

Module Run.
Import Fixture.

(** Seven historical purchases, newest first. *)
Definition cold_start : list action :=
  [ purchase "gift-7" "Plush Pepe" 7 "12.5" "2024-06-01T12:00:00Z";
    purchase "gift-6" "Durov Cap" 6 "3.2" "2024-06-01T11:59:50Z";
    purchase "gift-5" "Lol Pop" 5 "1.1" "2024-06-01T11:59:40Z";
    purchase "gift-4" "Toy Bear" 4 "150.0" "2024-06-01T11:59:30Z";
    purchase "gift-3" "Jelly Bunny" 3 "2.0" "2024-06-01T11:59:20Z";
    purchase "gift-2" "Magic Potion" 2 "9.9" "2024-06-01T11:59:10Z";
    purchase "gift-1" "Evil Eye" 1 "4.4" "2024-06-01T11:59:00Z" ].

(** Nine purchases that arrive together after the cold start. *)
Definition burst : list action :=
  [ purchase "gift-16" "Plush Pepe" 16 "12.5" "2024-06-01T12:01:08Z";
    purchase "gift-15" "Durov Cap" 15 "3.2" "2024-06-01T12:01:07Z";
    purchase "gift-14" "Lol Pop" 14 "1.1" "2024-06-01T12:01:06Z";
    purchase "gift-13" "Toy Bear" 13 "15.0" "2024-06-01T12:01:05Z";
    purchase "gift-12" "Jelly Bunny" 12 "2.0" "2024-06-01T12:01:04Z";
    purchase "gift-11" "Magic Potion" 11 "9.9" "2024-06-01T12:01:03Z";
    purchase "gift-10" "Evil Eye" 10 "4.4" "2024-06-01T12:01:02Z";
    purchase "gift-9" "Snow Globe" 9 "7.0" "2024-06-01T12:01:01Z";
    purchase "gift-8" "Star Notepad" 8 "6.0" "2024-06-01T12:01:00Z" ].

(** A transport that answers every send with [TelegramAPIError]. *)
Definition refusing (n : nat) : send_script :=
  {| retries := []; final := FApiError |}.

(** The scheduler and the loop on the concrete instances. *)
Definition process (transport : nat -> send_script) :=
  process_new_actions py_float fromisoformat date_isoformat format_message transport.

Definition loop (transport : nat -> send_script) :=
  monitoring_loop py_float fromisoformat date_isoformat format_message transport.

(** A monitor started without a state file. *)
Definition new_monitor : monitor := init fromisoformat today None.

(** The monitor after the cold start. *)
Definition after_cold_start : monitor * nat * trace :=
  process accepting cold_start new_monitor 0.

(** The instant, in epoch seconds, at which the burst is processed. *)
Definition burst_start : Q := 1717243270.

(** A cycle whose fetch meets a 500 at every attempt. *)
Definition failing_fetch : cycle :=
  {| running := true; token_age_exceeded := false;
     body := Fetched (Some "tma token") (fun _ => Response 500 None);
     now_iso := "2024-06-01T12:00:00" |}.

End Run.

(** ** More observations *)

(** The message ids passed to [bot.pin_chat_message], in order. *)
Definition pinned (tr : trace) : list Z :=
  omap (fun e => match e with EPin x => Some x | _ => None end) tr.

(** The snapshots written, in order. *)
Definition saved (tr : trace) : list snapshot :=
  omap (fun e => match e with ESave x => Some x | _ => None end) tr.

(** The entry [update_price_history] writes for an action of price [p]. *)
Definition record_of (a : action) (p : Q) : price_record :=
  {| price := p;
     timestamp := created_at a;
     pr_action_id := action_id a;
     pr_name := nft_name a;
     pr_external_number := external_collection_number a;
     enhanced_key :=
       nft_name a +:+ "_" +:+ jscalar_str (external_collection_number a) +:+ "_" +:+
       nft_id a |}.

(** The cycle fails before the fetch: no token, or an exception. *)
Definition failing (c : cycle) : Prop :=
  running c = true /\ (body c = TokenFailed \/ body c = Raised).

(** A parser for the examples that also reads a date alone, as
    [date.isoformat()] writes it, as the midnight of that day. *)
Module Restart.

Definition fromisoformat (s : string) : option datetime :=
  if bool_decide (String.length s = 10%nat) then
    match Fixture.field s 0 4, Fixture.field s 5 2, Fixture.field s 8 2 with
    | Some y, Some mo, Some d =>
        Some {| wall := inject_Z (Fixture.days_from_civil y mo d * 86400);
                utcoffset := None |}
    | _, _, _ => None
    end
  else Fixture.fromisoformat s.

End Restart.

(** ** Token store *)

(** [config.TOKEN_REFRESH_INTERVAL], in seconds. *)
Definition TOKEN_REFRESH_INTERVAL : Q := 3600.

(** [auth_token.txt]: its modification time and its content, [None]
    when reading it raises. *)
Record token_file := {
  mtime : Q;
  text : option string
}.

(** The token fields of [TelegramNFTMonitor]. *)
Record token_state := {
  auth_token : option string;
  token_last_updated : option Q;
  token_extraction_in_progress : bool
}.

(** A request seen by the route handler: its URL and its
    [authorization] header. *)
Record request := {
  url : string;
  authorization : option string
}.

(** One call of the route handler: the instant, whether
    [auth_token.txt] can be written then, and the request. *)
Record interception := {
  at_time : Q;
  writable : bool;
  intercepted : request
}.

Definition set_auth_token (v : option string) (s : token_state) : token_state :=
  {| auth_token := v; token_last_updated := token_last_updated s;
     token_extraction_in_progress := token_extraction_in_progress s |}.

(** [save_auth_token(token)] at the instant [now]; when the file cannot
    be written the exception is caught and nothing changes. *)
Definition save_auth_token (now : Q) (can_write : bool) (token : string)
    (s : token_state * option token_file) : token_state * option token_file :=
  if can_write then
    ({| auth_token := auth_token s.1; token_last_updated := Some now;
        token_extraction_in_progress := token_extraction_in_progress s.1 |},
     Some {| mtime := now; text := Some token |})
  else s.

(** [_intercept_requests(route)]: what it does to the token and to the
    token file. *)
Definition _intercept_requests (now : Q) (can_write : bool) (r : request)
    (s : token_state * option token_file) : token_state * option token_file :=
  if str_contains (url r) "portals-market.com/api" && str_contains (url r) "actions"
  then
    let auth_header := default "" (authorization r) in
    if negb (String.eqb auth_header "") &&
       (str_contains auth_header "tma " || str_contains auth_header "query_id=")
    then
      let new_token :=
        if String.prefix "tma " auth_header then auth_header
        else "tma " +:+ auth_header in
      if bool_decide (Some new_token = auth_token s.1) then s
      else save_auth_token now can_write new_token
             (set_auth_token (Some new_token) s.1, s.2)
    else s
  else s.

(** [is_token_valid()] at the instant [now]. *)
Definition is_token_valid (now : Q) (file : option token_file) : bool :=
  match file with
  | None => false
  | Some f => Qlt_bool (now - mtime f) (25 * 60)
  end.

(** [validate_token(token)]: the answer and the request made; [probe]
    is what the request meets. *)
Definition validate_token (token : option string) (probe : http_outcome)
  : bool * trace :=
  if truthy token then
    match probe with
    | Response status _ => ((status =? 200)%Z, [EGet 10])
    | RequestFailed => (false, [EGet 10])
    end
  else (false, []).

(** [extract_fresh_token()]: the browser automation is what it lets the
    route handler intercept, and whether it runs to its last test without
    a timeout or an exception. *)
Definition extract_fresh_token (seen_requests : list interception) (completed : bool)
    (s : token_state * option token_file)
  : token_state * option token_file * bool :=
  if token_extraction_in_progress s.1 then (s, false)
  else
    let s' := foldl (fun s i => _intercept_requests (at_time i) (writable i)
                                  (intercepted i) s) s seen_requests in
    (({| auth_token := auth_token s'.1;
         token_last_updated := token_last_updated s'.1;
         token_extraction_in_progress := false |}, s'.2),
     completed && truthy (auth_token s'.1)).

Section TokenStore.

(** [s.strip()]. *)
Variable strip : string -> string.

(** [load_auth_token()] at the instant [now]. *)
Definition load_auth_token (now : Q) (s : token_state * option token_file)
  : token_state * bool :=
  match s.2 with
  | None => (s.1, false)
  | Some f =>
      if Qlt_bool (now - mtime f) TOKEN_REFRESH_INTERVAL then
        match text f with
        | None => (s.1, false)
        | Some content =>
            let token := strip content in
            if truthy (Some token) then
              ({| auth_token := Some token;
                  token_last_updated := Some (mtime f);
                  token_extraction_in_progress :=
                    token_extraction_in_progress s.1 |}, true)
            else (s.1, false)
        end
      else (s.1, false)
  end.

(** [ensure_valid_token()] at the instant [now]: the state, the answer
    and the effects. *)
Definition ensure_valid_token (now : Q) (probe : http_outcome)
    (seen_requests : list interception) (completed : bool)
    (s : token_state * option token_file)
  : token_state * option token_file * bool * trace :=
  let '(st, loaded) := load_auth_token now s in
  let '(valid, tr) :=
    if loaded then validate_token (auth_token st) probe else (false, []) in
  if loaded && valid then ((st, s.2), true, tr)
  else
    let extract :=
      let '(s', ok) := extract_fresh_token seen_requests completed (st, s.2) in
      (s', ok, tr ++ [ERefreshToken]) in
    if is_token_valid now s.2 then
      match s.2 with
      | Some {| text := Some content |} =>
          ((set_auth_token (Some (strip content)) st, s.2), true, tr)
      | _ => extract
      end
    else extract.

End TokenStore.

(** ** Formatter *)

(** One element of [nft['attributes']]. *)
Record attribute := {
  attr_type : string;
  attr_value : string;
  rarity_per_mille : jscalar
}.

Module Formatter.

Definition bar : string := "‚îÇ".
Definition tee : string := "‚îú".
Definition top : string := "‚îå‚îÄüéâ GIFT SOLD!".
Definition bottom : string := "‚îî‚îÄ".
Definition per_mille : string := "‚Ä∞".
Definition newline : string := String "010" EmptyString.

(** [name.replace(' ', '')]. *)
Fixpoint remove_spaces (s : string) : string :=
  match s with
  | EmptyString => EmptyString
  | String c rest =>
      if Ascii.eqb c " " then remove_spaces rest else String c (remove_spaces rest)
  end.

(** [next((attr for attr in attributes if attr['type'] == t), None)]. *)
Definition first_of (t : string) (attributes : list attribute) : option attribute :=
  find (fun attr => String.eqb (attr_type attr) t) attributes.

(** The line of an attribute, when there is one. *)
Definition attribute_line (label trailer : string) (attr : option attribute)
  : list string :=
  match attr with
  | Some attr =>
      [tee +:+ label +:+ attr_value attr +:+ " (" +:+
       jscalar_str (rarity_per_mille attr) +:+ per_mille +:+ ")" +:+ trailer]
  | None => []
  end.

Section Format.

Variable fromisoformat : string -> option datetime.
(** [dt.strftime('%Y-%m-%d %H:%M UTC')]. *)
Variable strftime : datetime -> string.

(** [nft_url]. *)
Definition nft_url (a : action) : string :=
  "https://t.me/nft/" +:+ remove_spaces (nft_name a) +:+ "-" +:+
  jscalar_str (external_collection_number a).

(** [formatted_date]. *)
Definition formatted_date (a : action) : string :=
  match fromisoformat (replace_Z (created_at a)) with
  | Some dt => strftime dt
  | None => created_at a
  end.

(** [message_parts] at the [return]; [model_emoji] is the empty string. *)
Definition message_parts (a : action) (floor_price : string)
    (attributes : list attribute) : list string :=
  let name := nft_name a in
  let external_number := jscalar_str (external_collection_number a) in
  let model_emoji := "" in
  [ "<a href='" +:+ nft_url a +:+ "'>" +:+ model_emoji +:+ " " +:+ name +:+ " #" +:+
      external_number +:+ "</a>";
    "";
    top;
    bar;
    tee +:+ " Gift Name: " +:+ model_emoji +:+ " " +:+ name;
    tee +:+ " Floor Price: " +:+ floor_price +:+ " TON";
    tee +:+ " Sold For: " +:+ amount a +:+ " TON";
    bar ] ++
  attribute_line " Model: " (" " +:+ model_emoji) (first_of "model" attributes) ++
  attribute_line " Symbol: " "" (first_of "symbol" attributes) ++
  attribute_line " Backdrop: " "" (first_of "backdrop" attributes) ++
  [ bar;
    bottom +:+ " Date: " +:+ formatted_date a ].

(** [format_message(action)], for an action whose [nft] object holds
    [floor_price] and [attributes]. *)
Definition format_message (a : action) (floor_price : string)
    (attributes : list attribute) : string :=
  String.concat newline (message_parts a floor_price attributes).

End Format.

End Formatter.

(** ** Samples for the token store and the formatter *)

Module Sample.

(** ASCII white space, as [str.strip()] removes it. *)
Definition is_space (c : ascii) : bool :=
  let n := nat_of_ascii c in
  (Nat.leb 9 n && Nat.leb n 13) || (Nat.leb 28 n && Nat.leb n 32).

Fixpoint lstrip (s : string) : string :=
  match s with
  | EmptyString => EmptyString
  | String c rest => if is_space c then lstrip rest else s
  end.

Fixpoint rstrip (s : string) : string :=
  match s with
  | EmptyString => EmptyString
  | String c rest =>
      let rest' := rstrip rest in
      if is_space c && String.eqb rest' "" then "" else String c rest'
  end.

(** [s.strip()] on ASCII text. *)
Definition strip (s : string) : string := rstrip (lstrip s).

(** [dt.strftime('%Y-%m-%d %H:%M UTC')]. *)
Definition strftime (dt : datetime) : string :=
  let seconds := (Qfloor (wall dt) mod 86400)%Z in
  Fixture.date_isoformat (datetime_date dt) +:+ " " +:+
  Fixture.two (seconds / 3600)%Z +:+ ":" +:+ Fixture.two (seconds mod 3600 / 60)%Z +:+
  " UTC".

(** A monitor that holds no token, and a token file written ten minutes
    before the instant [now]. *)
Definition no_token : token_state :=
  {| auth_token := None; token_last_updated := None;
     token_extraction_in_progress := false |}.

Definition now : Q := 1717243800.

Definition recent_file : token_file :=
  {| mtime := 1717243200; text := Some ("tma query_id=abc" +:+ Formatter.newline) |}.

(** The attributes of a gift. *)
Definition model : attribute :=
  {| attr_type := "model"; attr_value := "Pumpkin"; rarity_per_mille := JInt 15 |}.
Definition symbol : attribute :=
  {| attr_type := "symbol"; attr_value := "Ghost"; rarity_per_mille := JInt 5 |}.
Definition backdrop : attribute :=
  {| attr_type := "backdrop"; attr_value := "Onyx Black"; rarity_per_mille := JInt 20 |}.
Definition other_model : attribute :=
  {| attr_type := "model"; attr_value := "Froggy"; rarity_per_mille := JInt 2 |}.

(** Three cycles in which no token can be obtained. *)
Definition no_token_cycle : cycle :=
  {| running := true; token_age_exceeded := false; body := TokenFailed;
     now_iso := "2024-06-01T12:00:00" |}.

(** A history that holds a sale stored under a key of the form
    [f"{name}_..."]. *)
Definition keyed_sale : action :=
  Fixture.purchase "Plush Pepe_41" "Plush Pepe" 41 "9.5" "2024-06-01T11:00:00Z".

Definition keyed_history : gmap string price_record :=
  {[ "Plush Pepe_41" := record_of keyed_sale (95 # 10) ]}.

End Sample.

(** * Properties *)

(** ** Dedup and price tracker *)

Section Classifier.

Variable py_float : string -> option Q.
Variable fromisoformat : string -> option datetime.

(** Rows 1 and 2 of the decision table: a known collectible id is a
    duplicate when the price moved by less than the threshold and a price
    change otherwise. *)
Lemma classify_known_id h a p r :
  py_float (amount a) = Some p ->
  h !! nft_id a = Some r ->
  is_duplicate_or_price_change py_float fromisoformat h a =
    if Qlt_bool (Qabs (p - price r)) config.PRICE_CHANGE_THRESHOLD
    then Some (true, false) else Some (false, true).
Proof.
  intros Hp Hr. unfold is_duplicate_or_price_change. rewrite Hp, Hr. reflexivity.
Qed.

(** An unknown collectible id is new as soon as no stored KEY starts with
    the gift name followed by ['_'], whatever the stored names and numbers. *)
Lemma classify_no_similar_key h a p :
  py_float (amount a) = Some p ->
  h !! nft_id a = None ->
  similar_gifts h (nft_name a) = [] ->
  is_duplicate_or_price_change py_float fromisoformat h a = Some (false, false).
Proof.
  intros Hp Hr Hs. unfold is_duplicate_or_price_change. rewrite Hp, Hr, Hs. reflexivity.
Qed.

(** The loop over the similar gifts does not depend on the order in
    which the dict is iterated: with an [int] number it raises as soon as
    there is one similar gift, with a [str] number it looks for one key
    that contains the number, with a close price and a close timestamp. *)
Lemma scan_similar_any_order number p ts l :
  scan_similar fromisoformat number p ts l =
    match number with
    | JInt _ => match l with [] => Some false | _ => None end
    | JStr x =>
        Some (existsb (fun kv : string * price_record =>
                         str_contains kv.1 x &&
                         Qlt_bool (Qabs (p - price kv.2)) config.PRICE_CHANGE_THRESHOLD &&
                         within_5_minutes fromisoformat ts (timestamp kv.2)) l)
    end.
Proof.
  destruct number as [z|x].
  - destruct l as [|[k d] l]; reflexivity.
  - induction l as [|[k d] l IH]; [reflexivity|].
    cbn [scan_similar jscalar_in existsb fst snd]. rewrite IH.
    destruct (str_contains k x && _); [|reflexivity].
    destruct (within_5_minutes _ _ _); reflexivity.
Qed.

(** [record]: after [update_price_history] the entry of the collectible
    holds the price and the timestamp of the action. *)
Lemma update_price_history_lookup h a x p :
  py_float (amount a) = Some p ->
  exists h' r, update_price_history py_float h a x = Some h' /\
    h' !! nft_id a = Some r /\ price r = p /\ timestamp r = created_at a /\
    pr_action_id r = x /\ pr_name r = nft_name a /\
    pr_external_number r = external_collection_number a.
Proof.
  intros Hp. unfold update_price_history. rewrite Hp.
  eexists _, _. split; [reflexivity|]. rewrite lookup_insert_eq. repeat split.
Qed.

End Classifier.

(** C1 (code defect). Row 3 of the decision table is not what
    [is_duplicate_or_price_change] computes: after [stored_sale] was
    recorded, [reissued_sale] has an unknown collectible id, the same name
    and the same external number as the stored record, a price within the
    threshold and a timestamp 90 s later, and it is classified as new,
    [(False, False)], not as a duplicate. *)
Theorem C1_near_duplicate_classified_new :
  exists h r,
    update_price_history Fixture.py_float ∅ Scenario.stored_sale
      (action_id Scenario.stored_sale) = Some h /\
    h !! nft_id Scenario.reissued_sale = None /\
    h !! nft_id Scenario.stored_sale = Some r /\
    pr_name r = nft_name Scenario.reissued_sale /\
    pr_external_number r = external_collection_number Scenario.reissued_sale /\
    Qlt_bool (Qabs ((10001 # 1000) - price r)) config.PRICE_CHANGE_THRESHOLD = true /\
    within_5_minutes Fixture.fromisoformat
      (created_at Scenario.reissued_sale) (timestamp r) = true /\
    is_duplicate_or_price_change Fixture.py_float Fixture.fromisoformat
      h Scenario.reissued_sale = Some (false, false).
Proof.
  eexists _, _. split; [reflexivity|].
  split; [reflexivity|]. split; [reflexivity|].
  repeat split; vm_compute; reflexivity.
Qed.

(** ** Chat publisher *)

(** The trace of [send_telegram_message]: one send and one sleep per
    [retry_after] answer, then the last send. *)
Lemma send_telegram_message_trace message retries final :
  (send_telegram_message message retries final).2 =
    flat_map (fun d => [ESend message; ESleep d]) retries ++ [ESend message].
Proof.
  induction retries as [|d rest IH]; simpl; [reflexivity|].
  destruct (send_telegram_message message rest final) as [r tr].
  simpl in *. rewrite IH. reflexivity.
Qed.

Lemma send_telegram_message_outcome message retries final :
  (send_telegram_message message retries final).1 =
    match final with
    | FHandle message_id => Message message_id
    | FApiError => ReturnedFalse
    | FOther => SendRaised
    end.
Proof.
  induction retries as [|d rest IH]; simpl; [reflexivity|].
  destruct (send_telegram_message message rest final) as [r tr]. exact IH.
Qed.

Lemma sent_flat_map message retries :
  sent (flat_map (fun d => [ESend message; ESleep d]) retries ++ [ESend message]) =
    replicate (S (length retries)) message.
Proof.
  induction retries as [|d rest IH]; simpl; [reflexivity|].
  unfold sent in *. simpl. rewrite IH. reflexivity.
Qed.

Lemma slept_flat_map message retries :
  slept (flat_map (fun d => [ESend message; ESleep d]) retries ++ [ESend message]) =
    retries.
Proof.
  induction retries as [|d rest IH]; simpl; [reflexivity|].
  unfold slept in *. simpl. rewrite IH. reflexivity.
Qed.

(** C8 as stated fails: when the transport answers [retry_after] twice,
    the same body is sent three times, that is retried twice. *)
Lemma C8_counterexample :
  send_telegram_message "body" [3; 7]%Q (FHandle 1) =
    (Message 1, [ESend "body"; ESleep 3; ESend "body"; ESleep 7; ESend "body"]) /\
  length (sent (send_telegram_message "body" [3; 7]%Q (FHandle 1)).2) <> 2%nat.
Proof.
  split; [reflexivity|]. vm_compute. discriminate.
Qed.

(** C8 (amended). For every [retry_after(d)] answer the publisher sleeps
    exactly [d] and sends the same body again; the retry is handled like
    the first send, so the body is sent once more than the transport
    answered [retry_after], and the outcome is that of the last send. *)
Theorem C8_retry_after_each_answer message retries final :
  let '(outcome, tr) := send_telegram_message message retries final in
  sent tr = replicate (S (length retries)) message /\
  slept tr = retries /\
  tr = flat_map (fun d => [ESend message; ESleep d]) retries ++ [ESend message] /\
  outcome = match final with
            | FHandle message_id => Message message_id
            | FApiError => ReturnedFalse
            | FOther => SendRaised
            end.
Proof.
  pose proof (send_telegram_message_trace message retries final) as Ht.
  pose proof (send_telegram_message_outcome message retries final) as Ho.
  destruct (send_telegram_message message retries final) as [outcome tr].
  simpl in *. subst tr.
  split; [apply sent_flat_map|]. split; [apply slept_flat_map|].
  split; [reflexivity|exact Ho].
Qed.

(** ** API client *)

Lemma fetch_attempts_policy R T net r : forall a,
  let '(res, tr) := fetch_attempts R T net a r in
  (length (requested tr) <= r)%nat /\
  Forall (fun t => t = T) (requested tr) /\
  (forall d, d ∈ slept tr ->
     exists i, (a <= i < a + r)%nat /\ (i + 1 < R)%nat /\
               d = backoff i /\ raises (net i) = true) /\
  (forall i, (a <= i < a + r)%nat ->
     (forall j, (a <= j < i)%nat -> answers (net j) = false) ->
     (unauthorized (net i) = true ->
        res = None /\ length (requested tr) = S (i - a)) /\
     (raises (net i) = true -> (i + 1 < R)%nat -> backoff i ∈ slept tr) /\
     (bad_status (net i) = true -> (i + 1 < a + r)%nat ->
        exists tr1 tr2, tr = tr1 ++ EGet T :: EGet T :: tr2 /\
                        length (requested tr1) = (i - a)%nat)).
Proof.
  induction r as [|r IH]; intros a.
  - simpl. split; [lia|]. split; [constructor|].
    split; [intros d Hd; inversion Hd|]. intros i Hi. lia.
  - specialize (IH (S a)). simpl.
    destruct (fetch_attempts R T net (S a) r) as [res' tr'] eqn:Hrec.
    destruct IH as (IH1 & IH2 & IH3 & IH4). simpl.
    (* the shape shared by the retrying branches *)
    assert (Hretry : forall bo,
      (bo = [] \/ (bo = [ESleep (backoff a)] /\ (a + 1 < R)%nat /\ raises (net a) = true)) ->
      answers (net a) = false ->
      (raises (net a) = true -> (a + 1 < R)%nat -> bo = [ESleep (backoff a)]) ->
      (bad_status (net a) = true -> bo = []) ->
      let tr := EGet T :: bo ++ tr' in
      (length (requested tr) <= S r)%nat /\
      Forall (fun t => t = T) (requested tr) /\
      (forall d, d ∈ slept tr ->
         exists i, (a <= i < a + S r)%nat /\ (i + 1 < R)%nat /\
                   d = backoff i /\ raises (net i) = true) /\
      (forall i, (a <= i < a + S r)%nat ->
         (forall j, (a <= j < i)%nat -> answers (net j) = false) ->
         (unauthorized (net i) = true ->
            res' = None /\ length (requested tr) = S (i - a)) /\
         (raises (net i) = true -> (i + 1 < R)%nat -> backoff i ∈ slept tr) /\
         (bad_status (net i) = true -> (i + 1 < a + S r)%nat ->
            exists tr1 tr2, tr = tr1 ++ EGet T :: EGet T :: tr2 /\
                            length (requested tr1) = (i - a)%nat))).
    { intros bo Hbo Hans Hraise Hbad tr.
      assert (Hreq : requested tr = T :: requested tr').
      { subst tr. unfold requested. simpl.
        destruct Hbo as [->|(-> & _)]; reflexivity. }
      assert (Hsl : forall d, d ∈ slept tr -> d ∈ slept tr' \/
                 (d = backoff a /\ bo = [ESleep (backoff a)])).
      { subst tr. unfold slept. simpl. intros d Hd.
        destruct Hbo as [->|(-> & _)]; simpl in Hd.
        - left. exact Hd.
        - apply elem_of_cons in Hd as [->|Hd]; [right; split; reflexivity|left; exact Hd]. }
      split; [rewrite Hreq; simpl; lia|].
      split; [rewrite Hreq; constructor; [reflexivity|exact IH2]|].
      split.
      { intros d Hd. apply Hsl in Hd as [Hd|[-> ->]].
        - destruct (IH3 d Hd) as (i & Hi & HR & -> & Hr).
          exists i. repeat split; try lia; assumption.
        - destruct Hbo as [Hbo|(_ & HR & Hr)]; [discriminate|].
          exists a. repeat split; try lia; assumption. }
      intros i Hi Hbefore.
      destruct (decide (i = a)) as [->|Hne].
      { split; [|split].
        - intros Hu. exfalso. destruct (net a) as [st js|]; simpl in *; [|discriminate].
          destruct (st =? 200)%Z; simpl in *; [discriminate|congruence].
        - intros Hr HR. subst tr. rewrite (Hraise Hr HR). unfold slept. simpl.
          apply list_elem_of_here.
        - intros Hb Hlt. specialize (Hbad Hb). subst bo tr. simpl.
          destruct r as [|r']; [lia|].
          exists [], (tail tr'). simpl. split; [|lia].
          (* the next attempt starts with its request *)
          simpl in Hrec.
          destruct (net (S a)) as [st js|]; simpl in Hrec.
          + destruct (st =? 200)%Z.
            * destruct js; inversion Hrec; reflexivity.
            * destruct (st =? 401)%Z; inversion Hrec; reflexivity.
          + inversion Hrec; reflexivity. }
      assert (Hi' : (S a <= i < S a + r)%nat) by lia.
      assert (Hbefore' : forall j, (S a <= j < i)%nat -> answers (net j) = false).
      { intros j Hj. apply Hbefore. lia. }
      destruct (IH4 i Hi' Hbefore') as (H401 & Hback & Hstat).
      split; [|split].
      - intros Hu. destruct (H401 Hu) as [-> Hlen]. split; [reflexivity|].
        rewrite Hreq. simpl. rewrite Hlen. lia.
      - intros Hr HR. specialize (Hback Hr HR). subst tr. unfold slept in *. simpl.
        destruct Hbo as [->|(-> & _)]; simpl; [exact Hback|].
        apply list_elem_of_further. exact Hback.
      - intros Hb Hlt. destruct Hstat as (tr1 & tr2 & -> & Hlen); [exact Hb|lia|].
        exists (EGet T :: bo ++ tr1), tr2. split.
        + subst tr. simpl. rewrite <- app_assoc. reflexivity.
        + change (EGet T :: bo ++ tr1) with ([EGet T] ++ bo ++ tr1).
          unfold requested in *. rewrite !omap_app, !length_app, Hlen.
          destruct Hbo as [->|(-> & _)]; simpl; lia. }
    destruct (net a) as [status json|] eqn:Hnet.
    + destruct (status =? 200)%Z eqn:H200.
      * destruct json as [data|].
        -- (* parsed 200 *)
           simpl. split; [lia|]. split; [repeat constructor|].
           split; [intros d Hd; inversion Hd|].
           intros i Hi Hbefore.
           destruct (decide (i = a)) as [->|Hne].
           ++ rewrite Hnet. simpl. rewrite H200. simpl.
              repeat split; intros; discriminate.
           ++ exfalso. specialize (Hbefore a ltac:(lia)).
              rewrite Hnet in Hbefore. unfold answers in Hbefore.
              rewrite H200 in Hbefore.
              apply bool_decide_eq_false in Hbefore. apply Hbefore. eauto.
        -- (* 200 whose body does not parse *)
           apply Hretry.
           ++ destruct (Z.of_nat a <? Z.of_nat R - 1)%Z eqn:Hlt; [right|left; reflexivity].
              apply Z.ltb_lt in Hlt. repeat split; [lia|simpl; exact H200].
           ++ unfold answers. rewrite H200. apply bool_decide_eq_false.
              intros [? ?]. discriminate.
           ++ intros _ HR. destruct (Z.of_nat a <? Z.of_nat R - 1)%Z eqn:Hlt; [reflexivity|].
              apply Z.ltb_ge in Hlt. lia.
           ++ simpl. rewrite H200. discriminate.
      * destruct (status =? 401)%Z eqn:H401.
        -- (* 401 *)
           simpl. split; [lia|]. split; [repeat constructor|].
           split; [intros d Hd; inversion Hd|].
           intros i Hi Hbefore.
           destruct (decide (i = a)) as [->|Hne].
           ++ rewrite Hnet. simpl. rewrite H200, H401. simpl.
              split; [intros _; split; [reflexivity|f_equal; lia]|].
              split; [destruct json; discriminate|discriminate].
           ++ exfalso. specialize (Hbefore a ltac:(lia)).
              rewrite Hnet in Hbefore. simpl in Hbefore.
              rewrite H200, H401 in Hbefore. discriminate.
        -- (* another status *)
           apply (Hretry []).
           ++ left; reflexivity.
           ++ simpl. rewrite H200. exact H401.
           ++ simpl. destruct json; [discriminate|]. rewrite H200. discriminate.
           ++ reflexivity.
    + (* the request raised *)
      apply Hretry.
      * destruct (Z.of_nat a <? Z.of_nat R - 1)%Z eqn:Hlt; [right|left; reflexivity].
        apply Z.ltb_lt in Hlt. repeat split; lia.
      * reflexivity.
      * intros _ HR. destruct (Z.of_nat a <? Z.of_nat R - 1)%Z eqn:Hlt; [reflexivity|].
        apply Z.ltb_ge in Hlt. lia.
      * discriminate.
Qed.

Lemma fetch_attempts_exhausted R T net r : forall a,
  (forall i, (a <= i < a + r)%nat -> answers (net i) = false) ->
  (fetch_attempts R T net a r).1 = None.
Proof.
  induction r as [|r IH]; intros a Hno; [reflexivity|].
  simpl. pose proof (Hno a ltac:(lia)) as Ha.
  assert (Hnext : (fetch_attempts R T net (S a) r).1 = None).
  { apply IH. intros i Hi. apply Hno. lia. }
  destruct (net a) as [status json|]; simpl; [|exact Hnext].
  unfold answers in Ha.
  destruct (status =? 200)%Z.
  - destruct json; [|exact Hnext].
    apply bool_decide_eq_false in Ha. exfalso. apply Ha. eauto.
  - rewrite Ha. exact Hnext.
Qed.

(** C6 as stated fails twice: a 500 answer is followed by the next
    request with no backoff sleep, and a 401 yields [None], the very
    result of exhausted retries. *)
Lemma C6_counterexample :
  let token := Some "tma token" in
  let after_500 := fun i : nat =>
    match i with
    | O => Response 500 None
    | _ => Response 200 (Some (Some []))
    end in
  fetch_market_actions 2 15 token after_500 = (Some [], [EGet 15; EGet 15]) /\
  (backoff 0 ∉ slept ((fetch_market_actions 2 15 token after_500).2)) /\
  ((fetch_market_actions 2 15 token (fun _ => Response 401 None)).1 =
   (fetch_market_actions 2 15 token (fun _ => Response 500 None)).1).
Proof.
  repeat split. intros H. vm_compute in H. inversion H.
Qed.

(** C6 (amended). With a token, [fetch_market_actions] makes at most
    [retry_attempts] requests, each with the total timeout
    [request_timeout]. It sleeps [2^attempt] seconds only after an attempt
    that raised (failed request or unparsable 200 body) and that is not the
    last one, and it does sleep then. A status other than 200 and 401 is
    followed by the next request at once. A 401 ends the call without any
    further request and returns [None], which is also the result when
    no attempt succeeds. *)
Theorem C6_fetch_retry_policy R T auth_token net :
  truthy auth_token = true ->
  let '(res, tr) := fetch_market_actions R T auth_token net in
  (length (requested tr) <= R)%nat /\
  Forall (fun t => t = T) (requested tr) /\
  (forall d, d ∈ slept tr ->
     exists i, (i + 1 < R)%nat /\ d = backoff i /\ raises (net i) = true) /\
  (forall i, (i < R)%nat ->
     (forall j, (j < i)%nat -> answers (net j) = false) ->
     (unauthorized (net i) = true ->
        res = None /\ length (requested tr) = S i) /\
     (raises (net i) = true -> (i + 1 < R)%nat -> backoff i ∈ slept tr) /\
     (bad_status (net i) = true -> (i + 1 < R)%nat ->
        exists tr1 tr2, tr = tr1 ++ EGet T :: EGet T :: tr2 /\
                        length (requested tr1) = i)) /\
  ((forall i, (i < R)%nat -> answers (net i) = false) -> res = None).
Proof.
  intros Htok. unfold fetch_market_actions. rewrite Htok.
  pose proof (fetch_attempts_policy R T net R 0) as Hp.
  pose proof (fetch_attempts_exhausted R T net R 0) as He.
  destruct (fetch_attempts R T net 0 R) as [res tr].
  destruct Hp as (H1 & H2 & H3 & H4).
  split; [exact H1|]. split; [exact H2|]. split; [|split].
  - intros d Hd. destruct (H3 d Hd) as (i & _ & HR & Hd' & Hr). eauto.
  - intros i Hi Hbefore.
    destruct (H4 i ltac:(lia)) as (Ha & Hb & Hc).
    { intros j Hj. apply Hbefore. lia. }
    rewrite Nat.sub_0_r in Ha, Hc.
    split; [exact Ha|]. split; [exact Hb|]. intros Hbad Hlt. apply Hc; [exact Hbad|lia].
  - intros Hno. apply He. intros i Hi. apply Hno. lia.
Qed.

(** C6 at work: two attempts, the first request fails and is followed by
    a one-second backoff, the second is refused with 401. *)
Lemma C6_fetch_retry_policy_witness :
  truthy (Some "tma token") = true /\
  let '(res, tr) :=
    fetch_market_actions 2 15 (Some "tma token")
      (fun i => match i with O => RequestFailed | _ => Response 401 None end) in
  (length (requested tr) <= 2)%nat /\ res = None.
Proof.
  split; [reflexivity|].
  pose proof (C6_fetch_retry_policy 2 15 (Some "tma token")
    (fun i => match i with O => RequestFailed | _ => Response 401 None end)
    eq_refl) as H.
  destruct (fetch_market_actions 2 15 (Some "tma token")
    (fun i => match i with O => RequestFailed | _ => Response 401 None end))
    as [res tr].
  destruct H as (H1 & _ & _ & H4 & _).
  split; [exact H1|].
  destruct (H4 1%nat ltac:(lia)) as (Hu & _).
  { intros j Hj. assert (j = 0)%nat as -> by lia. reflexivity. }
  apply Hu. reflexivity.
Defined.

(** ** Dispatch scheduler *)

Lemma collect_new_seen l : forall seen,
  (collect_new seen l).2 = seen ∪ ids l.
Proof.
  unfold ids. induction l as [|a l IH]; intros seen; simpl.
  - set_solver.
  - case_bool_decide as Hin.
    + rewrite IH. set_solver.
    + specialize (IH ({[action_id a]} ∪ seen)).
      destruct (collect_new ({[action_id a]} ∪ seen) l) as [N seen'].
      simpl in *. rewrite IH. set_solver.
Qed.

Lemma collect_new_sublist l : forall seen,
  (collect_new seen l).1 `sublist_of` l.
Proof.
  induction l as [|a l IH]; intros seen; simpl; [constructor|].
  case_bool_decide as Hin.
  - apply sublist_cons, IH.
  - specialize (IH ({[action_id a]} ∪ seen)).
    destruct (collect_new ({[action_id a]} ∪ seen) l) as [N seen'].
    simpl in *. apply sublist_skip, IH.
Qed.

Lemma collect_new_fresh l : forall seen a,
  a ∈ (collect_new seen l).1 -> action_id a ∉ seen.
Proof.
  induction l as [|b l IH]; intros seen a; simpl; [intros H; inversion H|].
  case_bool_decide as Hin.
  - apply IH.
  - specialize (IH ({[action_id b]} ∪ seen) a).
    destruct (collect_new ({[action_id b]} ∪ seen) l) as [N seen'].
    simpl in *. intros [->|Ha]%elem_of_cons; [exact Hin|].
    specialize (IH Ha). set_solver.
Qed.

Lemma collect_new_NoDup l : forall seen,
  NoDup (action_id <$> (collect_new seen l).1).
Proof.
  induction l as [|b l IH]; intros seen; simpl; [constructor|].
  case_bool_decide as Hin.
  - apply IH.
  - pose proof (collect_new_fresh l ({[action_id b]} ∪ seen)) as Hf.
    specialize (IH ({[action_id b]} ∪ seen)).
    destruct (collect_new ({[action_id b]} ∪ seen) l) as [N seen'].
    simpl in *. constructor; [|exact IH].
    intros (a & Heq & Ha)%list_elem_of_fmap.
    apply (Hf a Ha). rewrite <- Heq. set_solver.
Qed.

(** When no id is seen yet and the ids are pairwise distinct, every
    action is new. *)
Lemma collect_new_all l : forall seen,
  NoDup (action_id <$> l) ->
  (forall a, a ∈ l -> action_id a ∉ seen) ->
  (collect_new seen l).1 = l.
Proof.
  induction l as [|b l IH]; intros seen Hnd Hseen; simpl; [reflexivity|].
  apply NoDup_cons in Hnd as [Hb Hnd].
  rewrite bool_decide_eq_false_2 by (apply Hseen; left).
  specialize (IH ({[action_id b]} ∪ seen) Hnd).
  destruct (collect_new ({[action_id b]} ∪ seen) l) as [N seen'].
  simpl in *. f_equal. apply IH. intros a Ha.
  apply not_elem_of_union. split; [|apply Hseen; right; exact Ha].
  intros Heq%elem_of_singleton. apply Hb. rewrite <- Heq.
  apply list_elem_of_fmap. eauto.
Qed.

Lemma mark_seen_ids l : forall seen, mark_seen l seen = seen ∪ ids l.
Proof.
  unfold mark_seen, ids. induction l as [|a l IH]; intros seen; simpl.
  - set_solver.
  - rewrite IH. set_solver.
Qed.

Lemma ids_sublist l1 l2 : l1 `sublist_of` l2 -> ids l1 ⊆ ids l2.
Proof.
  intros Hs x. unfold ids. rewrite !elem_of_list_to_set.
  intros (a & -> & Ha)%list_elem_of_fmap. apply list_elem_of_fmap.
  exists a. split; [reflexivity|]. eapply elem_of_sublist; eauto.
Qed.

Lemma same_scheduler_refl m : same_scheduler m m.
Proof. repeat split. Qed.

Lemma same_scheduler_trans m1 m2 m3 :
  same_scheduler m1 m2 -> same_scheduler m2 m3 -> same_scheduler m1 m3.
Proof.
  unfold same_scheduler. intros (?&?&?&?&?&?&?&?) (?&?&?&?&?&?&?&?).
  repeat split; congruence.
Qed.

Lemma notified_app tr1 tr2 : notified (tr1 ++ tr2) = notified tr1 ++ notified tr2.
Proof. apply omap_app. Qed.

Lemma sent_app tr1 tr2 : sent (tr1 ++ tr2) = sent tr1 ++ sent tr2.
Proof. apply omap_app. Qed.

Lemma notified_send_telegram_message message retries final :
  notified (send_telegram_message message retries final).2 = [].
Proof.
  rewrite send_telegram_message_trace, notified_app.
  induction retries as [|d rest IH]; simpl; [reflexivity|exact IH].
Qed.

Lemma notified_pin message_id purchase_amount :
  notified (pin_message_if_high_value message_id purchase_amount) = [].
Proof. unfold pin_message_if_high_value. destruct (Qle_bool _ _); reflexivity. Qed.

Section Scheduler.

Variable py_float : string -> option Q.
Variable fromisoformat : string -> option datetime.
Variable date_isoformat : Z -> string.
Variable format_message : action -> option string.
Variable transport : nat -> send_script.

Local Abbreviation notify :=
  (send_single_notification py_float fromisoformat format_message transport).
Local Abbreviation each :=
  (send_each py_float fromisoformat format_message transport).
Local Abbreviation process :=
  (process_new_actions py_float fromisoformat date_isoformat format_message transport).
Local Abbreviation loop_from :=
  (monitoring_loop_from py_float fromisoformat date_isoformat format_message transport).
Local Abbreviation loop :=
  (monitoring_loop py_float fromisoformat date_isoformat format_message transport).

(** [send_single_notification] changes nothing but [price_history], and
    is entered once. *)
Lemma send_single_notification_scheduler a m k :
  same_scheduler m (notify a m k).1.1 /\ notified (notify a m k).2 = [a].
Proof.
  unfold send_single_notification.
  destruct (is_duplicate_or_price_change _ _ _ a) as [[[|] c]|];
    try (split; [apply same_scheduler_refl|reflexivity]).
  destruct (format_message a) as [message|];
    try (split; [apply same_scheduler_refl|reflexivity]).
  pose proof (notified_send_telegram_message message
                (retries (transport k)) (final (transport k))) as Hn.
  destruct (send_telegram_message message _ _) as [outcome tr]. simpl in Hn.
  assert (Hrec : forall tr', notified tr' = [] ->
    let r := match update_price_history py_float (price_history m) a (action_id a) with
             | Some h => (set_price_history h m, S k, ENotify a :: tr ++ tr')
             | None => (m, S k, ENotify a :: tr ++ tr')
             end in
    same_scheduler m r.1.1 /\ notified r.2 = [a]).
  { intros tr' Htr' r. subst r.
    destruct (update_price_history _ _ _ _);
      (split; [repeat split|]); cbn [snd];
      change (ENotify a :: tr ++ tr') with ([ENotify a] ++ tr ++ tr');
      rewrite !notified_app, Hn, Htr'; reflexivity. }
  destruct outcome as [message_id| |].
  - destruct (py_float (amount a)) as [purchase_amount|].
    + apply Hrec, notified_pin.
    + split; [apply same_scheduler_refl|]. cbn [snd].
      change (ENotify a :: tr) with ([ENotify a] ++ tr).
      rewrite notified_app, Hn. reflexivity.
  - apply Hrec. reflexivity.
  - split; [apply same_scheduler_refl|]. cbn [snd].
    change (ENotify a :: tr) with ([ENotify a] ++ tr).
    rewrite notified_app, Hn. reflexivity.
Qed.

(** The loop over a batch enters [send_single_notification] for each of
    its actions, in order, and changes nothing but [price_history]. *)
Lemma send_each_scheduler delay l : forall m k,
  same_scheduler m (each delay l m k).1.1 /\ notified (each delay l m k).2 = l.
Proof.
  induction l as [|a l IH]; intros m k; simpl.
  - split; [apply same_scheduler_refl|reflexivity].
  - pose proof (send_single_notification_scheduler a m k) as [Hs Hn].
    destruct (notify a m k) as [[m1 k1] t1]. simpl in Hs, Hn.
    specialize (IH m1 k1) as [Hs' Hn'].
    destruct (each delay l m1 k1) as [[m2 k2] t2]. simpl in *.
    split; [eapply same_scheduler_trans; eauto|].
    change (t1 ++ ESleep delay :: t2) with (t1 ++ [ESleep delay] ++ t2).
    rewrite !notified_app, Hn, Hn'. reflexivity.
Qed.

(** What one call of [process_new_actions] does to the scheduler state,
    in terms of the set N of new purchase actions of the cycle. *)
Lemma process_new_actions_anatomy actions m k :
  let N := fresh m actions in
  let m' := (process actions m k).1.1 in
  let tr := (process actions m k).2 in
  seen_actions m' = seen_actions m ∪ ids (purchases actions) /\
  message_timestamps m' = message_timestamps m /\
  daily_message_count m' = daily_message_count m /\
  last_daily_reset m' = last_daily_reset m /\
  match N with
  | [] =>
      notified tr = [] /\
      initial_batch_sent m' = initial_batch_sent m /\
      last_processed_timestamp m' = last_processed_timestamp m
  | first :: _ =>
      initial_batch_sent m' = true /\
      waiting_for_new_sales m' = false /\
      if initial_batch_sent m then
        let N' := if truthy (last_processed_timestamp m)
                  then strictly_newer (default "" (last_processed_timestamp m)) N
                  else N in
        notified tr = N' /\
        last_processed_timestamp m' =
          match N' with
          | [] => last_processed_timestamp m
          | newest :: _ => Some (created_at newest)
          end
      else
        notified tr = take 5 N /\
        last_processed_timestamp m' = Some (created_at first)
  end.
Proof.
  unfold fresh, process_new_actions.
  fold (purchases actions).
  destruct actions as [|a0 actions0].
  { simpl. unfold ids. simpl. repeat split. set_solver. }
  remember (purchases (a0 :: actions0)) as P eqn:HP. clear HP.
  destruct P as [|p P'].
  { simpl. unfold ids. simpl. repeat split. set_solver. }
  remember (p :: P') as P eqn:HP. cbv beta iota zeta.
  pose proof (collect_new_seen P (seen_actions m)) as Hseen.
  pose proof (collect_new_sublist P (seen_actions m)) as Hsub.
  destruct (collect_new (seen_actions m) P) as [N seen'] eqn:Hc.
  simpl in Hseen, Hsub. cbn [fst].
  destruct N as [|first N1].
  { destruct (waiting_for_new_sales m) eqn:Hw; simpl; rewrite Hw; simpl;
      repeat split; exact Hseen. }
  set (N := first :: N1) in *.
  assert (HidsN : ids N ⊆ seen').
  { rewrite Hseen. apply ids_sublist in Hsub. set_solver. }
  set (m0 := if waiting_for_new_sales (set_seen_actions seen' m)
             then set_waiting_for_new_sales false (set_seen_actions seen' m)
             else set_seen_actions seen' m).
  assert (Hm0 : seen_actions m0 = seen' /\
                initial_batch_sent m0 = initial_batch_sent m /\
                last_processed_timestamp m0 = last_processed_timestamp m /\
                waiting_for_new_sales m0 = false /\
                message_timestamps m0 = message_timestamps m /\
                daily_message_count m0 = daily_message_count m /\
                last_daily_reset m0 = last_daily_reset m).
  { subst m0. simpl. destruct (waiting_for_new_sales m) eqn:Hw; simpl;
      repeat split; exact Hw. }
  destruct Hm0 as (Hs0 & Hi0 & Hl0 & Hw0 & Ht0 & Hd0 & Hr0).
  clearbody m0. rewrite Hi0, Hl0.
  destruct (initial_batch_sent m) eqn:Hibs; cbn [negb].
  - (* steady state *)
    set (N' := if truthy (last_processed_timestamp m)
               then filter _ N else N).
    assert (HN' : N' = if truthy (last_processed_timestamp m)
                       then strictly_newer (default "" (last_processed_timestamp m)) N
                       else N) by reflexivity.
    clearbody N'. rewrite <- HN'.
    destruct N' as [|newest N1'].
    + simpl. rewrite Hs0, Hi0, Hl0, Hw0, Ht0, Hd0, Hr0. repeat split. exact Hseen.
    + pose proof (send_each_scheduler (1 # 2) (newest :: N1') m0 k) as [Hsame Hnot].
      destruct (each (1 # 2) (newest :: N1') m0 k) as [[m1 k1] tr1].
      simpl in Hsame, Hnot. destruct Hsame as (Hs1 & Hi1 & Hl1 & Hw1 & Ht1 & Hd1 & Hr1 & _).
      cbn [fst snd]. rewrite notified_app, Hnot. simpl.
      rewrite Hs1, Hi1, Hw1, Ht1, Hd1, Hr1, Hs0, Hi0, Hw0, Ht0, Hd0, Hr0.
      rewrite app_nil_r. repeat split. exact Hseen.
  - (* bootstrap *)
    pose proof (send_each_scheduler 1 (take 5 N) m0 k) as [Hsame Hnot].
    destruct (each 1 (take 5 N) m0 k) as [[m1 k1] tr1].
    simpl in Hsame, Hnot. destruct Hsame as (Hs1 & Hi1 & Hl1 & Hw1 & Ht1 & Hd1 & Hr1 & _).
    cbn [fst snd]. rewrite notified_app, Hnot. simpl.
    rewrite Hs1, Hw1, Ht1, Hd1, Hr1, Hs0, Hw0, Ht0, Hd0, Hr0.
    rewrite app_nil_r, mark_seen_ids. repeat split.
    rewrite Hseen. rewrite Hseen in HidsN.
    apply set_eq. intros x. split; [|set_solver].
    intros [Hx|Hx]%elem_of_union; [exact Hx|].
    apply HidsN. revert Hx. apply ids_sublist.
    apply (sublist_drop N 5).
Qed.

(** What [send_single_notification] sends: nothing when the action is a
    duplicate, or when the classifier or the formatter raises; otherwise
    the formatted body, once per answer of the transport, in one call of
    [send_telegram_message], after which the history is the same or has
    a new entry for the collectible. *)
Lemma send_single_notification_sent a m k :
  match is_duplicate_or_price_change py_float fromisoformat (price_history m) a,
        format_message a with
  | Some (false, _), Some body =>
      sent (notify a m k).2 = replicate (S (length (retries (transport k)))) body /\
      (notify a m k).1.2 = S k /\
      (price_history (notify a m k).1.1 = price_history m \/
       exists r, price_history (notify a m k).1.1 = <[nft_id a := r]> (price_history m))
  | _, _ => notify a m k = (m, k, [ENotify a])
  end.
Proof.
  unfold send_single_notification.
  destruct (is_duplicate_or_price_change py_float fromisoformat (price_history m) a)
    as [[[|] c]|] eqn:Hc; try reflexivity.
  destruct (format_message a) as [body|]; [|reflexivity].
  pose proof (send_telegram_message_trace body (retries (transport k))
                (final (transport k))) as Ht.
  destruct (send_telegram_message body _ _) as [outcome tr]. cbn [snd] in Ht.
  assert (Hsent : forall tr', sent tr' = [] ->
            sent (ENotify a :: tr ++ tr') =
            replicate (S (length (retries (transport k)))) body).
  { intros tr' Htr'. change (ENotify a :: tr ++ tr') with ([ENotify a] ++ tr ++ tr').
    rewrite !sent_app, Htr', app_nil_r, Ht. apply sent_flat_map. }
  assert (Hrec : forall tr', sent tr' = [] ->
    let r := match update_price_history py_float (price_history m) a (action_id a) with
             | Some h => (set_price_history h m, S k, ENotify a :: tr ++ tr')
             | None => (m, S k, ENotify a :: tr ++ tr')
             end in
    sent r.2 = replicate (S (length (retries (transport k)))) body /\
    r.1.2 = S k /\
    (price_history r.1.1 = price_history m \/
     exists x, price_history r.1.1 = <[nft_id a := x]> (price_history m))).
  { intros tr' Htr' r. subst r. unfold update_price_history.
    destruct (py_float (amount a)) as [p|]; cbn [fst snd price_history set_price_history];
      (split; [apply Hsent, Htr'|]); (split; [reflexivity|]); eauto. }
  destruct outcome as [message_id| |].
  - destruct (py_float (amount a)) as [purchase_amount|].
    + apply Hrec. unfold pin_message_if_high_value. destruct (Qle_bool _ _); reflexivity.
    + cbn [fst snd]. rewrite <- (app_nil_r tr). split; [apply Hsent; reflexivity|].
      split; [reflexivity|left; reflexivity].
  - apply Hrec. reflexivity.
  - cbn [fst snd]. rewrite <- (app_nil_r tr). split; [apply Hsent; reflexivity|].
    split; [reflexivity|left; reflexivity].
Qed.

(** Every body sent by the loop over a batch is the formatted body of an
    action of the batch, and the loop makes at most one call of
    [send_telegram_message] per action. *)
Lemma send_each_sent_from delay l : forall m k,
  (forall body, body ∈ sent (each delay l m k).2 ->
     exists a, a ∈ l /\ format_message a = Some body) /\
  ((each delay l m k).1.2 <= k + length l)%nat.
Proof.
  induction l as [|a l IH]; intros m k; simpl.
  - split; [intros body H; inversion H|lia].
  - pose proof (send_single_notification_sent a m k) as Ha.
    assert (Hone : (forall body, body ∈ sent (notify a m k).2 ->
                      format_message a = Some body) /\
                   ((notify a m k).1.2 <= S k)%nat).
    { destruct (is_duplicate_or_price_change _ _ _ a) as [[[|] c]|];
        try (rewrite Ha; split; [intros body H; inversion H|cbn; lia]).
      destruct (format_message a) as [body'|];
        [|rewrite Ha; split; [intros body H; inversion H|cbn; lia]].
      destruct Ha as (Hs & Hk & _). rewrite Hs, Hk. split; [|lia].
      intros body Hin. apply elem_of_replicate in Hin as [-> _]. reflexivity. }
    destruct Hone as [Hbody Hk].
    destruct (notify a m k) as [[m1 k1] t1]. cbn [fst snd] in Hbody, Hk.
    specialize (IH m1 k1) as [IHbody IHk].
    destruct (each delay l m1 k1) as [[m2 k2] t2]. cbn [fst snd] in *.
    split; [|lia]. intros body Hin.
    change (t1 ++ ESleep delay :: t2) with (t1 ++ [ESleep delay] ++ t2) in Hin.
    rewrite !sent_app in Hin. apply elem_of_app in Hin as [Hin|Hin].
    + exists a. split; [left|apply Hbody, Hin].
    + change (sent [ESleep delay]) with (@nil string) in Hin.
      destruct (IHbody body Hin) as (b & Hb & Hf). exists b. split; [right; exact Hb|exact Hf].
Qed.

Lemma similar_gifts_nil h name :
  (forall key, is_Some (h !! key) -> String.prefix (name +:+ "_") key = false) ->
  similar_gifts h name = [].
Proof.
  intros Hkeys. unfold similar_gifts. apply elem_of_nil_inv. intros [key r] Hin.
  apply list_elem_of_filter in Hin as [Hp Hin]. apply elem_of_map_to_list in Hin.
  cbn [fst] in Hp. rewrite Hkeys in Hp by eauto. discriminate.
Qed.

(** When the amounts parse, the formatter succeeds, the collectible ids
    are pairwise distinct and neither a key of the history nor a
    collectible id of the batch is the id of an action of the batch or
    starts with its gift name and ['_'], the classifier finds every
    action of the batch new: each goes through one call of
    [send_telegram_message], in order. *)
Lemma send_each_new delay l : forall m k bodies,
  Forall2 (fun a body => format_message a = Some body) l bodies ->
  Forall (fun a => is_Some (py_float (amount a))) l ->
  NoDup (nft_id <$> l) ->
  (forall a b, a ∈ l -> b ∈ l -> String.prefix (nft_name b +:+ "_") (nft_id a) = false) ->
  unrelated (price_history m) l ->
  sent (each delay l m k).2 = published transport k bodies /\
  (each delay l m k).1.2 = (k + length l)%nat.
Proof.
  induction l as [|a l IH]; intros m k bodies Hfmt Hamt Hnd Hpre Hun.
  - apply Forall2_nil_inv_l in Hfmt as ->. simpl. split; [reflexivity|lia].
  - apply Forall2_cons_inv_l in Hfmt as (body & bodies' & Hbody & Hfmt & ->).
    apply Forall_cons in Hamt as [[p Hp] Hamt].
    rewrite fmap_cons in Hnd. apply NoDup_cons in Hnd as [Hnotin Hnd].
    assert (Hnone : price_history m !! nft_id a = None).
    { destruct (price_history m !! nft_id a) as [r|] eqn:E; [|reflexivity].
      exfalso. destruct (Hun (nft_id a) a) as [Hne _]; [eauto|left|]. apply Hne. reflexivity. }
    assert (Hsim : similar_gifts (price_history m) (nft_name a) = []).
    { apply similar_gifts_nil. intros key Hkey. apply (Hun key a Hkey). left. }
    pose proof (send_single_notification_sent a m k) as Ha.
    rewrite (classify_no_similar_key py_float fromisoformat _ _ _ Hp Hnone Hsim), Hbody in Ha.
    destruct Ha as (Hs & Hk & Hh). simpl.
    destruct (notify a m k) as [[m1 k1] t1]. cbn [fst snd] in Hs, Hk, Hh. subst k1.
    assert (Hun1 : unrelated (price_history m1) l).
    { intros key b Hkey Hb. destruct Hh as [Hh|[r Hh]]; rewrite Hh in Hkey.
      - apply (Hun key b Hkey). right. exact Hb.
      - destruct (decide (key = nft_id a)) as [->|Hne].
        + split.
          * intros Heq. apply Hnotin. rewrite Heq. apply list_elem_of_fmap. eauto.
          * apply Hpre; [left|right; exact Hb].
        + rewrite lookup_insert_ne in Hkey by congruence.
          apply (Hun key b Hkey). right. exact Hb. }
    specialize (IH m1 (S k) bodies' Hfmt Hamt Hnd) as [IHs IHk]; [|exact Hun1|].
    { intros x y Hx Hy. apply Hpre; right; assumption. }
    destruct (each delay l m1 (S k)) as [[m2 k2] t2]. cbn [fst snd] in *.
    split; [|lia].
    change (t1 ++ ESleep delay :: t2) with (t1 ++ [ESleep delay] ++ t2).
    rewrite !sent_app, Hs, IHs. reflexivity.
Qed.

Lemma published_no_retry k bodies :
  (forall i, retries (transport i) = []) -> published transport k bodies = bodies.
Proof.
  intros Hno. revert k. induction bodies as [|body rest IH]; intros k; [reflexivity|].
  simpl. rewrite Hno, IH. reflexivity.
Qed.

Lemma set_waiting_false m :
  waiting_for_new_sales m = false -> set_waiting_for_new_sales false m = m.
Proof. destruct m. cbn. intros ->. reflexivity. Qed.

(** A cycle with new purchase actions is one send loop followed by the
    snapshot. The loop is run on the monitor as the cycle found it,
    except that [seen_actions] already holds the id of every purchase
    action of the response and that waiting mode is off; its batch is
    what the cycle emits, and what it leaves, state and count of send
    calls, is what the cycle ends in, up to the bootstrap flag and the
    timestamp. *)
Lemma process_send_loop actions m k :
  fresh m actions <> [] ->
  let m0 := set_waiting_for_new_sales false
              (set_seen_actions (seen_actions m ∪ ids (purchases actions)) m) in
  let delay := if initial_batch_sent m then (1 # 2)%Q else 1%Q in
  let r := each delay (notified (process actions m k).2) m0 k in
  (process actions m k).2 =
    r.2 ++ [ESave (save_state date_isoformat (process actions m k).1.1)] /\
  (process actions m k).1.2 = r.1.2 /\
  price_history (process actions m k).1.1 = price_history r.1.1 /\
  seen_actions (process actions m k).1.1 = seen_actions r.1.1 /\
  seen_actions r.1.1 = seen_actions m0.
Proof.
  intros HN. pose proof (process_new_actions_anatomy actions m k) as (Hseen & _).
  cbv zeta in Hseen. revert HN Hseen.
  unfold fresh, process_new_actions. fold (purchases actions).
  destruct actions as [|a0 actions0]; [intros HN; exfalso; apply HN; reflexivity|].
  remember (purchases (a0 :: actions0)) as P eqn:HP. clear HP.
  destruct P as [|p P']; [intros HN; exfalso; apply HN; reflexivity|].
  remember (p :: P') as P eqn:HP. cbv beta iota zeta.
  pose proof (collect_new_seen P (seen_actions m)) as Hc.
  destruct (collect_new (seen_actions m) P) as [N seen'] eqn:HcN.
  cbn [fst snd] in Hc |- *. subst seen'.
  destruct N as [|first N1]; [intros HN; exfalso; apply HN; reflexivity|]. intros _.
  assert (Hm0 : (if waiting_for_new_sales (set_seen_actions (seen_actions m ∪ ids P) m)
                 then set_waiting_for_new_sales false
                        (set_seen_actions (seen_actions m ∪ ids P) m)
                 else set_seen_actions (seen_actions m ∪ ids P) m) =
                set_waiting_for_new_sales false
                  (set_seen_actions (seen_actions m ∪ ids P) m)).
  { destruct (waiting_for_new_sales _) eqn:Hw; [reflexivity|].
    symmetry. apply set_waiting_false. exact Hw. }
  rewrite Hm0. clear Hm0.
  set (m0 := set_waiting_for_new_sales false
               (set_seen_actions (seen_actions m ∪ ids P) m)).
  assert (Hi0 : initial_batch_sent m0 = initial_batch_sent m) by reflexivity.
  assert (Hl0 : last_processed_timestamp m0 = last_processed_timestamp m) by reflexivity.
  assert (Hs0 : seen_actions m0 = seen_actions m ∪ ids P) by reflexivity.
  rewrite Hi0, Hl0. clearbody m0.
  destruct (initial_batch_sent m); cbn [negb].
  - set (N' := if truthy (last_processed_timestamp m) then filter _ (first :: N1)
               else first :: N1).
    clearbody N'. destruct N' as [|newest N1'].
    + intros Hseen. cbn. repeat split.
    + pose proof (send_each_scheduler (1 # 2) (newest :: N1') m0 k) as [Hsame Hnot].
      destruct (each (1 # 2) (newest :: N1') m0 k) as [[m1 k1] tr1] eqn:He.
      cbn [fst snd] in Hsame, Hnot |- *. intros Hseen.
      rewrite notified_app, Hnot. change (notified [ESave _]) with (@nil action).
      rewrite app_nil_r, He. cbn [fst snd]. destruct Hsame as (Hs1 & _).
      repeat split; exact Hs1.
  - pose proof (send_each_scheduler 1 (take 5 (first :: N1)) m0 k) as [Hsame Hnot].
    destruct (each 1 (take 5 (first :: N1)) m0 k) as [[m1 k1] tr1] eqn:He.
    cbn [fst snd] in Hsame, Hnot |- *. intros Hseen.
    rewrite notified_app, Hnot. change (notified [ESave _]) with (@nil action).
    rewrite app_nil_r, He. cbn [fst snd]. destruct Hsame as (Hs1 & _).
    split; [reflexivity|]. split; [reflexivity|]. split; [reflexivity|].
    split; [|exact Hs1].
    cbn [seen_actions set_seen_actions set_last_processed_timestamp
         set_initial_batch_sent] in Hseen |- *.
    rewrite Hseen, Hs1, Hs0. reflexivity.
Qed.

(** A cycle without new purchase actions has no effect and makes no
    send call. *)
Lemma process_quiet actions m k :
  fresh m actions = [] ->
  (process actions m k).2 = [] /\ (process actions m k).1.2 = k.
Proof.
  unfold fresh, process_new_actions. fold (purchases actions).
  destruct actions as [|a0 actions0]; [split; reflexivity|].
  remember (purchases (a0 :: actions0)) as P eqn:HP. clear HP.
  destruct P as [|p P']; [split; reflexivity|].
  remember (p :: P') as P eqn:HP. cbv beta iota zeta.
  destruct (collect_new (seen_actions m) P) as [N seen']. cbn [fst].
  intros ->. split; reflexivity.
Qed.

Lemma notified_fetch_attempts R T net r : forall a,
  notified (fetch_attempts R T net a r).2 = [].
Proof.
  induction r as [|r IH]; intros a; simpl; [reflexivity|].
  specialize (IH (S a)).
  destruct (fetch_attempts R T net (S a) r) as [res tr]. simpl in *.
  assert (Hbo : forall bo : trace,
            bo = [] \/ (exists d, bo = [ESleep d]) ->
            notified (EGet T :: bo ++ tr) = []).
  { intros bo [->|[d ->]]; simpl; exact IH. }
  destruct (net a) as [status json|].
  - destruct (status =? 200)%Z.
    + destruct json; [reflexivity|]. apply Hbo.
      destruct (_ <? _)%Z; eauto.
    + destruct (status =? 401)%Z; [reflexivity|]. simpl. exact IH.
  - apply Hbo. destruct (_ <? _)%Z; eauto.
Qed.

Lemma notified_fetch_market_actions R T auth_token net :
  notified (fetch_market_actions R T auth_token net).2 = [].
Proof.
  unfold fetch_market_actions. destruct (truthy auth_token); [|reflexivity].
  apply notified_fetch_attempts.
Qed.

(** One cycle of the loop either leaves the monitor alone or runs
    [process_new_actions] once and then stamps [last_check_time]. *)
Lemma loop_body_effect c s :
  let r := loop_body py_float fromisoformat date_isoformat format_message transport c s in
  (mon r.1.1 = mon s /\ notified r.1.2 = []) \/
  (exists actions t,
     mon r.1.1 = set_last_check_time t (process actions (mon s) (sends s)).1.1 /\
     notified r.1.2 = notified (process actions (mon s) (sends s)).2).
Proof.
  unfold loop_body.
  set (tr0 := if (token_age_exceeded c || _) then [ERefreshToken] else []).
  assert (H0 : notified tr0 = []) by (subst tr0; destruct (_ || _); reflexivity).
  clearbody tr0.
  destruct (body c) as [|auth_token net| |].
  - left. cbn [fst snd mon]. rewrite notified_app, H0. split; reflexivity.
  - pose proof (notified_fetch_market_actions config.RETRY_ATTEMPTS
                  config.REQUEST_TIMEOUT auth_token net) as Hf.
    destruct (fetch_market_actions _ _ auth_token net) as [[actions|] tr1];
      simpl in Hf.
    + right. exists actions, (Some (now_iso c)).
      destruct (process actions (mon s) (sends s)) as [[m k] tr].
      cbn [fst snd mon]. rewrite !notified_app, H0, Hf. simpl.
      rewrite app_nil_r. split; reflexivity.
    + right. exists [], (Some (now_iso c)). cbn [Nat.leb fst snd mon].
      rewrite !notified_app, H0, Hf. split; reflexivity.
  - left. destruct (_ <=? _)%nat; cbn [fst snd mon]; [|rewrite notified_app];
      rewrite H0; split; reflexivity.
  - left. cbn [fst snd mon]. split; [reflexivity|exact H0].
Qed.

(** A property of a run that holds for the empty run, composes, and
    holds for one call of [process_new_actions] followed by the
    [last_check_time] stamp, holds for every run of the loop. *)
Lemma loop_induction (R : monitor -> monitor -> list action -> Prop) :
  (forall m, R m m []) ->
  (forall m1 m2 m3 l1 l2, R m1 m2 l1 -> R m2 m3 l2 -> R m1 m3 (l1 ++ l2)) ->
  (forall actions m k t,
     R m (set_last_check_time t (process actions m k).1.1)
         (notified (process actions m k).2)) ->
  forall cycles s,
    R (mon s) (mon (loop_from cycles s).1.1) (notified (loop_from cycles s).1.2).
Proof.
  intros Hrefl Htrans Hstep. induction cycles as [|c rest IH]; intros s.
  - apply Hrefl.
  - simpl. destruct (running c); simpl; [|apply Hrefl].
    pose proof (loop_body_effect c s) as Hb. simpl in Hb.
    destruct (loop_body _ _ _ _ _ c s) as [[s1 tr1] stop]. simpl in Hb.
    assert (H1 : R (mon s) (mon s1) (notified tr1)).
    { destruct Hb as [[-> ->]|(actions & t & -> & ->)]; [apply Hrefl|apply Hstep]. }
    destruct stop as [reason|]; [exact H1|].
    specialize (IH s1).
    destruct (loop_from rest s1) as [[s2 tr2] reason]. simpl in *.
    rewrite notified_app. eapply Htrans; eauto.
Qed.

(** A run over [cs1 ++ cs2] is the run over [cs1] followed, when the
    loop is still running, by the run over [cs2]. *)
Lemma monitoring_loop_from_app cs1 cs2 : forall s,
  loop_from (cs1 ++ cs2) s =
    let '(s1, tr1, reason) := loop_from cs1 s in
    match reason with
    | StillRunning =>
        let '(s2, tr2, reason) := loop_from cs2 s1 in (s2, tr1 ++ tr2, reason)
    | _ => (s1, tr1, reason)
    end.
Proof.
  induction cs1 as [|c rest IH]; intros s; simpl.
  - destruct (loop_from cs2 s) as [[s2 tr2] reason]. reflexivity.
  - destruct (running c); simpl; [|reflexivity].
    destruct (loop_body _ _ _ _ _ c s) as [[s1 tr1] stop].
    destruct stop as [reason|]; [reflexivity|].
    rewrite IH. destruct (loop_from rest s1) as [[s2 tr2] reason].
    destruct reason; try reflexivity.
    destruct (loop_from cs2 s2) as [[s3 tr3] reason]. rewrite app_assoc. reflexivity.
Qed.

End Scheduler.

(** ** Strings: order and action ids *)

Lemma ltb_lt a b : String.ltb a b = true <-> String_as_OT.lt a b.
Proof.
  unfold String.ltb. rewrite <- String_as_OT.cmp_lt. unfold String_as_OT.cmp.
  destruct (String.compare a b); split; congruence.
Qed.

Lemma ltb_trans a b c :
  String.ltb a b = true -> String.ltb b c = true -> String.ltb a c = true.
Proof. rewrite !ltb_lt. apply String_as_OT.lt_trans. Qed.

Lemma ltb_empty x : x <> EmptyString -> String.ltb EmptyString x = true.
Proof. destruct x; [congruence|reflexivity]. Qed.

Lemma ts_le_refl a : ts_le a a.
Proof. destruct a; simpl; auto. Qed.

Lemma ts_le_trans a b c : ts_le a b -> ts_le b c -> ts_le a c.
Proof.
  destruct a as [x|], b as [y|], c as [z|]; simpl; try tauto.
  intros [->|Hxy] [->|Hyz]; auto. right. eapply ltb_trans; eauto.
Qed.

Lemma str_max_newer a b : String.ltb a b = true -> str_max a b = b.
Proof. unfold str_max. intros ->. reflexivity. Qed.

Lemma append_assoc (a b c : string) : (a +:+ b) +:+ c = a +:+ (b +:+ c).
Proof.
  induction a as [|x a IH]; [reflexivity|].
  change (String x ((a +:+ b) +:+ c) = String x (a +:+ (b +:+ c))).
  f_equal. exact IH.
Qed.

Lemma underscore_inside x t : no_underscore (x +:+ String "_" t) = false.
Proof.
  induction x as [|c x IH]; [reflexivity|].
  change (negb (Ascii.eqb c "_") && no_underscore (x +:+ String "_" t) = false).
  rewrite IH. apply andb_false_r.
Qed.

(** A string is cut in one way only at its last ['_']. *)
Lemma append_sep_inj x : forall y t1 t2,
  no_underscore t1 = true -> no_underscore t2 = true ->
  x +:+ String "_" t1 = y +:+ String "_" t2 -> x = y /\ t1 = t2.
Proof.
  induction x as [|c x IH]; intros [|d y] t1 t2 H1 H2 Heq; cbn in Heq.
  - inversion Heq. auto.
  - inversion Heq as [[Hc Ht]]. rewrite Ht, underscore_inside in H1. discriminate.
  - inversion Heq as [[Hc Ht]]. rewrite <- Ht, underscore_inside in H2. discriminate.
  - inversion Heq as [[Hc Ht]]. destruct (IH y t1 t2 H1 H2 Ht) as [-> ->]. auto.
Qed.

(** Timestamps and amounts without ['_'] make the action id determine
    the collectible id. *)
Lemma action_id_inj a b :
  no_underscore (created_at a) = true -> no_underscore (amount a) = true ->
  no_underscore (created_at b) = true -> no_underscore (amount b) = true ->
  action_id a = action_id b -> nft_id a = nft_id b.
Proof.
  intros Hca Haa Hcb Hab. unfold action_id.
  change ("_" +:+ amount a) with (String "_" (amount a)).
  change ("_" +:+ amount b) with (String "_" (amount b)).
  change ("_" +:+ created_at a +:+ String "_" (amount a))
    with (String "_" EmptyString +:+ created_at a +:+ String "_" (amount a)).
  change ("_" +:+ created_at b +:+ String "_" (amount b))
    with (String "_" EmptyString +:+ created_at b +:+ String "_" (amount b)).
  rewrite <- !append_assoc. intros Heq.
  apply append_sep_inj in Heq as [Heq _]; [|assumption..].
  rewrite !append_assoc in Heq. simpl in Heq.
  apply append_sep_inj in Heq as [Heq _]; assumption.
Qed.

Lemma NoDup_action_ids l :
  Forall (fun a => no_underscore (created_at a) = true /\
                   no_underscore (amount a) = true) l ->
  NoDup (nft_id <$> l) -> NoDup (action_id <$> l).
Proof.
  induction l as [|a l IH]; intros Hwf Hnd; simpl; [constructor|].
  apply Forall_cons in Hwf as [[Hc Ha] Hwf].
  simpl in Hnd. apply NoDup_cons in Hnd as [Hnotin Hnd].
  constructor; [|apply IH; assumption].
  intros (b & Heq & Hb)%list_elem_of_fmap. apply Hnotin.
  apply list_elem_of_fmap. exists b. split; [|exact Hb].
  rewrite Forall_forall in Hwf. destruct (Hwf b Hb) as [Hcb Hab].
  apply action_id_inj; assumption.
Qed.

(** ** Invariants of the scheduler *)

Lemma emits_once_refl m : emits_once m m [].
Proof.
  split; [reflexivity|]. split; [constructor|]. intros a Ha. inversion Ha.
Qed.

Lemma emits_once_trans m1 m2 m3 l1 l2 :
  emits_once m1 m2 l1 -> emits_once m2 m3 l2 -> emits_once m1 m3 (l1 ++ l2).
Proof.
  intros (Hs1 & Hd1 & Hf1) (Hs2 & Hd2 & Hf2).
  split; [etrans; eauto|]. split.
  - rewrite fmap_app. apply NoDup_app. split; [exact Hd1|]. split; [|exact Hd2].
    intros x (a & -> & Ha)%list_elem_of_fmap (b & Heq & Hb)%list_elem_of_fmap.
    destruct (Hf1 a Ha) as [_ Hin]. destruct (Hf2 b Hb) as [Hnotin _].
    apply Hnotin. rewrite <- Heq. exact Hin.
  - intros a [Ha|Ha]%elem_of_app.
    + destruct (Hf1 a Ha) as [Hn Hi]. split; [exact Hn|]. apply Hs2, Hi.
    + destruct (Hf2 a Ha) as [Hn Hi]. split; [|exact Hi]. intros Hin. apply Hn, Hs1, Hin.
Qed.

Lemma timestamp_grows_refl m : timestamp_grows m m [].
Proof. intros Hinv. split; [exact Hinv|apply ts_le_refl]. Qed.

Lemma timestamp_grows_trans m1 m2 m3 l1 l2 :
  timestamp_grows m1 m2 l1 -> timestamp_grows m2 m3 l2 ->
  timestamp_grows m1 m3 (l1 ++ l2).
Proof.
  intros H12 H23 Hinv. destruct (H12 Hinv) as [Hinv2 Hle12].
  destruct (H23 Hinv2) as [Hinv3 Hle23].
  split; [exact Hinv3|]. eapply ts_le_trans; eauto.
Qed.

Lemma take_drop_disjoint {A} (l : list A) n a :
  NoDup l -> a ∈ drop n l -> a ∉ take n l.
Proof.
  intros Hnd Hd Ht. rewrite <- (take_drop n l) in Hnd.
  apply NoDup_app in Hnd as (_ & Hdis & _). exact (Hdis a Ht Hd).
Qed.

Lemma purchases_all actions :
  Forall (fun a => act_type a = "purchase") actions -> purchases actions = actions.
Proof.
  unfold purchases. induction 1 as [|a l Ha _ IH]; [reflexivity|].
  rewrite filter_cons_True by exact Ha. f_equal. exact IH.
Qed.

Lemma distinct_purchases_ids n :
  purchases (distinct_purchases n) = distinct_purchases n /\
  NoDup (action_id <$> distinct_purchases n) /\
  length (distinct_purchases n) = n.
Proof.
  unfold distinct_purchases. split; [|split].
  - apply purchases_all. apply Forall_fmap, Forall_forall. intros i _. reflexivity.
  - apply NoDup_action_ids.
    + apply Forall_fmap, Forall_forall. intros i _. split; reflexivity.
    + rewrite <- list_fmap_compose. apply NoDup_fmap_2; [|apply NoDup_seq].
      intros i j Hij. simpl in Hij. apply (inj pretty) in Hij. exact Hij.
  - rewrite length_fmap, length_seq. reflexivity.
Qed.

Section Claims.

Variable py_float : string -> option Q.
Variable fromisoformat : string -> option datetime.
Variable date_isoformat : Z -> string.
Variable format_message : action -> option string.
Variable transport : nat -> send_script.

Local Abbreviation notify :=
  (send_single_notification py_float fromisoformat format_message transport).
Local Abbreviation process :=
  (process_new_actions py_float fromisoformat date_isoformat format_message transport).
Local Abbreviation loop_from :=
  (monitoring_loop_from py_float fromisoformat date_isoformat format_message transport).
Local Abbreviation loop :=
  (monitoring_loop py_float fromisoformat date_isoformat format_message transport).
Local Abbreviation anatomy :=
  (process_new_actions_anatomy py_float fromisoformat date_isoformat format_message
     transport).

Lemma fresh_sublist m actions : fresh m actions `sublist_of` purchases actions.
Proof. apply collect_new_sublist. Qed.

Lemma purchases_sublist actions : purchases actions `sublist_of` actions.
Proof. apply sublist_filter. Qed.

(** The actions emitted in a cycle are new actions of the cycle, in the
    order of the API response. *)
Lemma process_notified_sublist actions m k :
  notified (process actions m k).2 `sublist_of` fresh m actions.
Proof.
  pose proof (anatomy actions m k) as (_ & _ & _ & _ & H). simpl in H.
  destruct (fresh m actions) as [|first N1] eqn:HN.
  - destruct H as [-> _]. constructor.
  - destruct H as (_ & _ & H). destruct (initial_batch_sent m).
    + destruct H as [-> _]. destruct (truthy _); [apply sublist_filter|reflexivity].
    + destruct H as [-> _]. apply sublist_take.
Qed.

Lemma process_emits_once actions m k t :
  emits_once m (set_last_check_time t (process actions m k).1.1)
             (notified (process actions m k).2).
Proof.
  pose proof (anatomy actions m k) as (Hseen & _). simpl in Hseen.
  pose proof (process_notified_sublist actions m k) as Hsub.
  unfold emits_once. cbn [seen_actions set_last_check_time]. rewrite Hseen.
  split; [set_solver|]. split.
  - eapply sublist_NoDup; [apply collect_new_NoDup|].
    apply fmap_sublist. exact Hsub.
  - intros a Ha. pose proof (elem_of_sublist _ _ _ Ha Hsub) as HaN. split.
    + eapply collect_new_fresh. exact HaN.
    + apply elem_of_union_r. unfold ids. apply elem_of_list_to_set, list_elem_of_fmap.
      exists a. split; [reflexivity|].
      eapply elem_of_sublist; [exact HaN|apply fresh_sublist].
Qed.

Lemma process_timestamp_grows actions m k t :
  timestamp_grows m (set_last_check_time t (process actions m k).1.1)
                  (notified (process actions m k).2).
Proof.
  pose proof (anatomy actions m k) as (_ & _ & _ & _ & H). simpl in H.
  unfold timestamp_grows, no_timestamp_before_batch.
  cbn [initial_batch_sent last_processed_timestamp set_last_check_time].
  intros Hinv. destruct (fresh m actions) as [|first N1].
  - destruct H as (_ & -> & ->). split; [exact Hinv|apply ts_le_refl].
  - destruct H as (Hibs & _ & H). rewrite Hibs. split; [discriminate|].
    destruct (initial_batch_sent m) eqn:Hb.
    + destruct H as [_ ->].
      destruct (last_processed_timestamp m) as [l|] eqn:Hl; [|exact I].
      change (default "" (Some l)) with l.
      cbn [truthy]. destruct (String.eqb l "") eqn:He; cbn [negb].
      * apply String.eqb_eq in He as ->. simpl.
        destruct (created_at first) as [|c r] eqn:Hc; [left; reflexivity|].
        right. reflexivity.
      * destruct (strictly_newer l (first :: N1)) as [|newest N'] eqn:HN';
          [simpl; auto|].
        assert (Hin : newest ∈ strictly_newer l (first :: N1))
          by (rewrite HN'; left).
        unfold strictly_newer in Hin. apply list_elem_of_filter in Hin as [Hin _].
        apply andb_true_iff in Hin as [_ Hin]. simpl. right. exact Hin.
    + rewrite (Hinv eq_refl). exact I.
Qed.

Lemma loop_emits_once cycles s :
  emits_once (mon s) (mon (loop_from cycles s).1.1) (notified (loop_from cycles s).1.2).
Proof.
  apply (loop_induction py_float fromisoformat date_isoformat format_message transport
           emits_once).
  - apply emits_once_refl.
  - apply emits_once_trans.
  - apply process_emits_once.
Qed.

Lemma loop_timestamp_grows cycles s :
  timestamp_grows (mon s) (mon (loop_from cycles s).1.1)
                  (notified (loop_from cycles s).1.2).
Proof.
  apply (loop_induction py_float fromisoformat date_isoformat format_message transport
           timestamp_grows).
  - apply timestamp_grows_refl.
  - apply timestamp_grows_trans.
  - apply process_timestamp_grows.
Qed.

(** The state after [cs1 ++ cs2] is the state a run reaches from the
    state after [cs1]. *)
Lemma loop_extends cs1 cs2 s :
  exists cycles,
    (loop_from (cs1 ++ cs2) s).1.1 = (loop_from cycles (loop_from cs1 s).1.1).1.1.
Proof.
  rewrite (monitoring_loop_from_app py_float fromisoformat date_isoformat
             format_message transport).
  destruct (loop_from cs1 s) as [[s1 tr1] reason].
  destruct reason; try (exists []; reflexivity).
  exists cs2. cbn [fst]. destruct (loop_from cs2 s1) as [[s2 tr2] reason]. reflexivity.
Qed.

Lemma formatted_bodies l :
  Forall (fun a => is_Some (format_message a)) l ->
  exists bodies, Forall2 (fun a body => format_message a = Some body) l bodies.
Proof.
  induction 1 as [|a l [body Hbody] _ [bodies IH]].
  - exists []. constructor.
  - exists (body :: bodies). constructor; assumption.
Qed.

(** C3. On the first cycle ([initial_batch_sent] false) with a non-empty
    set N of new purchase actions, the scheduler hands exactly the first
    five actions of N, in the order of the API response, to
    [send_single_notification]; every chat message of the cycle is the
    formatted body of one of these five, in at most five calls of
    [send_telegram_message]; the other actions of N are seen and not
    emitted; [last_processed_timestamp] becomes the timestamp of N[0] and
    [initial_batch_sent] becomes true. In particular, from a cold start
    (nothing seen) with seven purchase actions of pairwise distinct
    collectible ids (ISO timestamps and decimal amounts hold no ['_']),
    N is the response, exactly five actions are emitted and the other two
    are marked seen. When moreover the history is empty, the amounts are
    numbers, the formatter gives a body for each action and no
    collectible id starts with a gift name of the response followed by
    ['_'], the five go through five calls of [send_telegram_message],
    one each and in order: the chat receives the five bodies, each once
    and once more per [retry_after] answer, so exactly five messages
    when the transport never answers [retry_after]. *)
Theorem C3_bootstrap_batch actions m k :
  initial_batch_sent m = false ->
  let N := fresh m actions in
  let m' := (process actions m k).1.1 in
  let tr := (process actions m k).2 in
  (N <> [] ->
     notified tr = take 5 N /\
     (forall a, a ∈ drop 5 N -> (action_id a ∈ seen_actions m') /\ (a ∉ notified tr)) /\
     last_processed_timestamp m' = created_at <$> head N /\
     initial_batch_sent m' = true /\
     (forall body, body ∈ sent tr ->
        exists a, a ∈ take 5 N /\ format_message a = Some body) /\
     ((process actions m k).1.2 <= k + 5)%nat) /\
  (seen_actions m = ∅ ->
   length actions = 7%nat ->
   Forall (fun a => act_type a = "purchase") actions ->
   NoDup (nft_id <$> actions) ->
   Forall (fun a => no_underscore (created_at a) = true /\
                    no_underscore (amount a) = true) actions ->
     N = actions /\
     notified tr = take 5 actions /\
     length (notified tr) = 5%nat /\
     length (drop 5 actions) = 2%nat /\
     (forall a, a ∈ drop 5 actions ->
        (action_id a ∈ seen_actions m') /\ (a ∉ notified tr)) /\
     last_processed_timestamp m' = created_at <$> head actions /\
     initial_batch_sent m' = true /\
     (price_history m = ∅ ->
      Forall (fun a => is_Some (py_float (amount a)) /\
                       is_Some (format_message a)) actions ->
      (forall a b, a ∈ actions -> b ∈ actions ->
         String.prefix (nft_name b +:+ "_") (nft_id a) = false) ->
      exists bodies,
        Forall2 (fun a body => format_message a = Some body) (take 5 actions) bodies /\
        length bodies = 5%nat /\
        sent tr = published transport k bodies /\
        (process actions m k).1.2 = (k + 5)%nat /\
        ((forall i, retries (transport i) = []) ->
         sent tr = bodies /\ length (sent tr) = 5%nat))).
Proof.
  intros Hibs N m' tr.
  assert (Hgen : N <> [] ->
     notified tr = take 5 N /\
     (forall a, a ∈ drop 5 N -> (action_id a ∈ seen_actions m') /\ (a ∉ notified tr)) /\
     last_processed_timestamp m' = created_at <$> head N /\
     initial_batch_sent m' = true /\
     (forall body, body ∈ sent tr ->
        exists a, a ∈ take 5 N /\ format_message a = Some body) /\
     ((process actions m k).1.2 <= k + 5)%nat).
  { intros Hne.
    pose proof (anatomy actions m k) as (Hseen & _ & _ & _ & H).
    fold N m' tr in Hseen, H. cbv zeta in H.
    pose proof (collect_new_NoDup (purchases actions) (seen_actions m)) as Hnd.
    fold (fresh m actions) in Hnd. fold N in Hnd.
    pose proof (fresh_sublist m actions) as Hsub. fold N in Hsub.
    pose proof (process_send_loop py_float fromisoformat date_isoformat format_message
                  transport actions m k Hne) as (Htr & Hk & _).
    cbv zeta in Htr, Hk. fold tr in Htr, Hk. rewrite Hibs in Htr, Hk.
    destruct N as [|first N1]; [congruence|].
    rewrite Hibs in H. destruct H as (Hb & _ & Hn & Hl).
    rewrite Hn in Htr, Hk.
    set (seen' := seen_actions m ∪ ids (purchases actions)) in *.
    set (m0 := set_waiting_for_new_sales false (set_seen_actions seen' m)) in *.
    destruct (send_each_sent_from py_float fromisoformat format_message transport
                1 (take 5 (first :: N1)) m0 k) as [Hfrom Hcalls].
    split; [exact Hn|]. split; [|split; [exact Hl|split; [exact Hb|split]]].
    - intros a Ha. split.
      + rewrite Hseen. apply elem_of_union_r. unfold ids.
        apply elem_of_list_to_set, list_elem_of_fmap. exists a. split; [reflexivity|].
        eapply elem_of_sublist; [|exact Hsub].
        eapply elem_of_sublist; [exact Ha|apply sublist_drop].
      + rewrite Hn. apply take_drop_disjoint; [|exact Ha].
        eapply NoDup_fmap_1. exact Hnd.
    - intros body Hin. apply Hfrom. rewrite Htr, sent_app in Hin.
      change (sent [ESave _]) with (@nil string) in Hin. rewrite app_nil_r in Hin.
      exact Hin.
    - rewrite Hk. etrans; [exact Hcalls|]. rewrite length_take. lia. }
  split; [exact Hgen|].
  intros Hcold Hlen Hpur Hids Hwf.
  assert (HN : N = actions).
  { subst N. unfold fresh. rewrite (purchases_all _ Hpur), Hcold.
    apply collect_new_all; [apply NoDup_action_ids; assumption|].
    intros a _. apply not_elem_of_empty. }
  assert (Hne : N <> []).
  { rewrite HN. intros ->. discriminate. }
  destruct (Hgen Hne) as (Hn & Hrest & Hl & Hb & _). rewrite HN in Hn, Hrest, Hl.
  split; [exact HN|]. split; [exact Hn|].
  split; [rewrite Hn, length_take; lia|].
  split; [rewrite length_drop; lia|].
  split; [exact Hrest|]. split; [exact Hl|]. split; [exact Hb|].
  intros Hhist Hparse Hkeys.
  pose proof (process_send_loop py_float fromisoformat date_isoformat format_message
                transport actions m k Hne) as (Htr & Hk & _).
  cbv zeta in Htr, Hk. fold tr in Htr, Hk. rewrite Hibs, Hn in Htr, Hk.
  set (seen' := seen_actions m ∪ ids (purchases actions)) in *.
  set (m0 := set_waiting_for_new_sales false (set_seen_actions seen' m)) in *.
  assert (Hfmt5 : Forall (fun a => is_Some (format_message a)) (take 5 actions)).
  { apply Forall_take. eapply Forall_impl; [exact Hparse|]. intros a [_ H]. exact H. }
  destruct (formatted_bodies _ Hfmt5) as [bodies Hbodies].
  exists bodies. split; [exact Hbodies|].
  assert (Hlen5 : length bodies = 5%nat).
  { rewrite <- (Forall2_length _ _ _ Hbodies), length_take. lia. }
  split; [exact Hlen5|].
  destruct (send_each_new py_float fromisoformat format_message transport
              1 (take 5 actions) m0 k bodies Hbodies) as [Hs Hcalls].
  - apply Forall_take. eapply Forall_impl; [exact Hparse|]. intros a [H _]. exact H.
  - eapply sublist_NoDup; [exact Hids|]. apply fmap_sublist, sublist_take.
  - intros x y Hx Hy.
    apply Hkeys; eapply elem_of_sublist; eauto; apply sublist_take.
  - intros key b [r Hr]. exfalso. subst m0. cbn in Hr. rewrite Hhist in Hr.
    rewrite lookup_empty in Hr. discriminate.
  - assert (Hsent : sent tr = published transport k bodies).
    { rewrite Htr, sent_app. change (sent [ESave _]) with (@nil string).
      rewrite app_nil_r. exact Hs. }
    split; [exact Hsent|]. split; [rewrite Hk, Hcalls, length_take; lia|].
    intros Hno. rewrite Hsent, (published_no_retry transport k bodies Hno).
    split; [reflexivity|exact Hlen5].
Qed.

(** C4. An action whose id is in [seen_actions] is never handed to
    [send_single_notification] by any later cycle of the loop: the
    actions a run emits have ids that were not seen when the run started,
    that are pairwise distinct over the whole run, and that are seen when
    it ends. Within one cycle, the emitted actions are purchase actions
    of the response whose ids were not seen before the cycle and are seen
    after it, each id at most once. A cycle drops the actions whose id is
    seen and inserts the ids of all the others, emitted or not: it ends
    with [seen_actions] grown by the ids of all purchase actions of the
    response, and what it emits is a sublist of the new ones. The ids
    are inserted before any emission: the cycle is the send loop over
    the emitted actions, run on the monitor in which [seen_actions]
    already holds all these ids, followed by the snapshot; the loop
    leaves [seen_actions] as it got it, and the cycle ends in the
    history and the count of send calls that the loop leaves. *)
Theorem C4_seen_never_emitted_again :
  (forall cycles s x a,
     x ∈ seen_actions (mon s) ->
     a ∈ notified (loop_from cycles s).1.2 ->
     action_id a <> x) /\
  (forall cycles s,
     NoDup (action_id <$> notified (loop_from cycles s).1.2) /\
     forall a, a ∈ notified (loop_from cycles s).1.2 ->
       action_id a ∈ seen_actions (mon (loop_from cycles s).1.1)) /\
  (forall actions m k,
     NoDup (action_id <$> notified (process actions m k).2) /\
     forall a, a ∈ notified (process actions m k).2 ->
       a ∈ purchases actions /\
       (action_id a ∉ seen_actions m) /\
       (action_id a ∈ seen_actions (process actions m k).1.1)) /\
  (forall actions m k,
     let seen' := seen_actions m ∪ ids (purchases actions) in
     let m0 := set_waiting_for_new_sales false (set_seen_actions seen' m) in
     let delay := if initial_batch_sent m then (1 # 2)%Q else 1%Q in
     let r := send_each py_float fromisoformat format_message transport
                delay (notified (process actions m k).2) m0 k in
     seen_actions (process actions m k).1.1 = seen' /\
     (forall a, a ∈ purchases actions ->
        action_id a ∈ seen_actions (process actions m k).1.1) /\
     notified (process actions m k).2 `sublist_of` fresh m actions /\
     (forall a, a ∈ fresh m actions -> action_id a ∉ seen_actions m) /\
     (fresh m actions = [] -> (process actions m k).2 = []) /\
     (fresh m actions <> [] ->
        (process actions m k).2 =
          r.2 ++ [ESave (save_state date_isoformat (process actions m k).1.1)] /\
        (process actions m k).1.2 = r.1.2 /\
        price_history (process actions m k).1.1 = price_history r.1.1 /\
        seen_actions r.1.1 = seen')).
Proof.
  split; [|split; [|split]].
  - intros cycles s x a Hx Ha Heq.
    destruct (loop_emits_once cycles s) as (_ & _ & Hf).
    destruct (Hf a Ha) as [Hn _]. apply Hn. rewrite Heq. exact Hx.
  - intros cycles s. destruct (loop_emits_once cycles s) as (_ & Hnd & Hf).
    split; [exact Hnd|]. intros a Ha. apply (Hf a Ha).
  - intros actions m k.
    destruct (process_emits_once actions m k None) as (_ & Hnd & Hf).
    split; [exact Hnd|]. intros a Ha. split; [|exact (Hf a Ha)].
    eapply elem_of_sublist; [|apply fresh_sublist].
    eapply elem_of_sublist; [exact Ha|apply process_notified_sublist].
  - intros actions m k seen' m0 delay r.
    pose proof (anatomy actions m k) as (Hseen & _). cbv zeta in Hseen.
    split; [exact Hseen|]. split; [|split; [|split; [|split]]].
    + intros a Ha. rewrite Hseen. apply elem_of_union_r. unfold ids.
      apply elem_of_list_to_set, list_elem_of_fmap. eauto.
    + apply process_notified_sublist.
    + intros a Ha. eapply collect_new_fresh. exact Ha.
    + intros HN.
      apply (process_quiet py_float fromisoformat date_isoformat format_message
               transport actions m k HN).
    + intros HN.
      destruct (process_send_loop py_float fromisoformat date_isoformat format_message
                  transport actions m k HN) as (Htr & Hk & Hh & _ & Hs).
      split; [exact Htr|]. split; [exact Hk|]. split; [exact Hh|exact Hs].
Qed.

(** C5 (amended). Within a cycle the actions are emitted in the order of
    the API response, of which they form a sublist (newest first when the
    API answers newest first). Across cycles [last_processed_timestamp]
    never decreases in the order in which the code compares it. In steady
    state with a timestamp [l], the emitted actions N' are the new ones
    strictly newer than [l], and the timestamp becomes
    [max(l, N'[0].created_at)], or stays [l] when N' is empty. *)
Theorem C5_api_order_and_growing_timestamp :
  (forall actions m k,
     notified (process actions m k).2 `sublist_of` actions) /\
  (forall cs1 cs2 s,
     no_timestamp_before_batch (mon s) ->
     ts_le (last_processed_timestamp (mon (loop_from cs1 s).1.1))
           (last_processed_timestamp (mon (loop_from (cs1 ++ cs2) s).1.1))) /\
  (forall actions m k l,
     initial_batch_sent m = true ->
     last_processed_timestamp m = Some l ->
     l <> "" ->
     let N' := strictly_newer l (fresh m actions) in
     notified (process actions m k).2 = N' /\
     (forall a, a ∈ N' -> String.ltb l (created_at a) = true) /\
     last_processed_timestamp (process actions m k).1.1 =
       match N' with
       | [] => Some l
       | newest :: _ => Some (str_max l (created_at newest))
       end).
Proof.
  split; [|split].
  - intros actions m k. etrans; [apply process_notified_sublist|].
    etrans; [apply fresh_sublist|apply purchases_sublist].
  - intros cs1 cs2 s Hinv.
    destruct (loop_extends cs1 cs2 s) as [cycles ->].
    destruct (loop_timestamp_grows cs1 s Hinv) as [Hinv1 _].
    destruct (loop_timestamp_grows cycles (loop_from cs1 s).1.1 Hinv1) as [_ Hle].
    exact Hle.
  - intros actions m k l Hibs Hl Hne N'.
    assert (Hnewer : forall a, a ∈ N' -> String.ltb l (created_at a) = true).
    { intros a Ha. subst N'. unfold strictly_newer in Ha.
      apply list_elem_of_filter in Ha as [Ha _].
      apply andb_true_iff in Ha as [_ Ha]. exact Ha. }
    pose proof (anatomy actions m k) as (_ & _ & _ & _ & H). cbv zeta in H.
    rewrite Hibs, Hl in H. change (default "" (Some l)) with l in H.
    assert (Ht : truthy (Some l) = true).
    { simpl. apply negb_true_iff, String.eqb_neq. exact Hne. }
    rewrite Ht in H. fold N' in H.
    destruct (fresh m actions) as [|first N1] eqn:HN.
    + destruct H as (Hn & _ & Hl'). subst N'. unfold strictly_newer. simpl.
      rewrite Hn, Hl'. split; [reflexivity|]. split; [intros a Ha; inversion Ha|].
      reflexivity.
    + destruct H as (_ & _ & Hn & Hl'). split; [exact Hn|]. split; [exact Hnewer|].
      rewrite Hl'. destruct N' as [|newest N1']; [reflexivity|].
      rewrite str_max_newer; [reflexivity|]. apply Hnewer. left.
Qed.

(** C9. When the send of a new action is answered by an API error,
    [send_single_notification] still records the action in
    [price_history]; its id, put in [seen_actions] by the scheduler,
    stays there, and no later cycle of the loop emits an action with that
    id again. *)
Theorem C9_failed_send_is_recorded a m k c message :
  is_duplicate_or_price_change py_float fromisoformat (price_history m) a =
    Some (false, c) ->
  format_message a = Some message ->
  final (transport k) = FApiError ->
  action_id a ∈ seen_actions m ->
  let m' := (notify a m k).1.1 in
  let tr := (notify a m k).2 in
  sent tr = replicate (S (length (retries (transport k)))) message /\
  (exists r, price_history m' !! nft_id a = Some r /\
             py_float (amount a) = Some (price r) /\
             timestamp r = created_at a /\
             pr_action_id r = action_id a) /\
  (action_id a ∈ seen_actions m') /\
  (forall cycles s, mon s = m' ->
     forall a', a' ∈ notified (loop_from cycles s).1.2 ->
       action_id a' <> action_id a).
Proof.
  intros Hclass Hfmt Hfinal Hseen m' tr.
  assert (Hp : exists p, py_float (amount a) = Some p).
  { unfold is_duplicate_or_price_change in Hclass.
    destruct (py_float (amount a)) as [p|]; [eauto|discriminate]. }
  destruct Hp as [p Hp].
  destruct (update_price_history_lookup py_float (price_history m) a (action_id a) p Hp)
    as (h' & r & Hupd & Hlook & Hprice & Hts & Hid & _).
  assert (Hrun : notify a m k =
            (set_price_history h' m, S k,
             ENotify a :: (send_telegram_message message (retries (transport k))
                             FApiError).2 ++ [])).
  { unfold send_single_notification. rewrite Hclass, Hfmt, Hfinal.
    pose proof (send_telegram_message_outcome message (retries (transport k)) FApiError)
      as Ho.
    destruct (send_telegram_message message (retries (transport k)) FApiError)
      as [outcome tr1].
    simpl in Ho. subst outcome. rewrite Hupd. reflexivity. }
  subst m' tr. rewrite Hrun. cbn [fst snd].
  split; [|split; [|split]].
  - rewrite app_nil_r, send_telegram_message_trace.
    change (ENotify a :: ?l) with ([ENotify a] ++ l).
    rewrite sent_app. simpl. apply sent_flat_map.
  - exists r. rewrite <- Hprice in Hp. auto.
  - exact Hseen.
  - intros cycles s Hs a' Ha' Heq.
    destruct (loop_emits_once cycles s) as (_ & _ & Hf).
    destruct (Hf a' Ha') as [Hn _]. apply Hn. rewrite Heq, Hs. exact Hseen.
Qed.

(** C10. [seen_actions] never loses an element: [process_new_actions]
    only adds ids, the retention purge touches [price_history] only,
    [load_state], run on the empty set of a new monitor, only adds,
    [save_state] writes the whole set, so that loading its snapshot gives
    the set back, along every run of the loop the set after more
    cycles contains the set after fewer, and [run()] ends with at least
    the set [__init__] loaded. Nothing bounds its size. *)
Theorem C10_seen_actions_only_grows :
  (forall actions m k,
     seen_actions m ⊆ seen_actions (process actions m k).1.1) /\
  (forall now m,
     seen_actions (cleanup_old_price_history fromisoformat now m) = seen_actions m) /\
  (forall today file m,
     seen_actions m = ∅ ->
     seen_actions m ⊆ seen_actions (load_state fromisoformat today file m)) /\
  (forall today m m0,
     seen_actions (load_state fromisoformat today
                     (Some (save_state date_isoformat m)) m0) = seen_actions m) /\
  (forall cs1 cs2 s,
     seen_actions (mon (loop_from cs1 s).1.1) ⊆
     seen_actions (mon (loop_from (cs1 ++ cs2) s).1.1)) /\
  (forall today file now cycles k,
     seen_actions (init fromisoformat today file) ⊆
     seen_actions (mon (run py_float fromisoformat date_isoformat format_message
                          transport now cycles (init fromisoformat today file) k).1.1)) /\
  (forall n m k,
     exists actions, (n <= size (seen_actions (process actions m k).1.1))%nat).
Proof.
  split; [|split; [|split; [|split; [|split; [|split]]]]].
  - intros actions m k. apply (process_emits_once actions m k None).
  - intros now m. reflexivity.
  - intros today file m ->. apply empty_subseteq.
  - intros today m m0. unfold load_state, save_state. cbn [s_last_daily_reset].
    assert (Hset : list_to_set (elements (seen_actions m)) = seen_actions m)
      by apply list_to_set_elements_L.
    destruct (String.eqb _ _); [exact Hset|].
    destruct (fromisoformat _) as [d|]; [|exact Hset].
    destruct (bool_decide _); exact Hset.
  - intros cs1 cs2 s. destruct (loop_extends cs1 cs2 s) as [cycles ->].
    apply (loop_emits_once cycles (loop_from cs1 s).1.1).
  - intros today file now cycles k. unfold run, monitoring_loop.
    pose proof (loop_emits_once cycles
                  {| mon := cleanup_old_price_history fromisoformat now
                              (init fromisoformat today file);
                     sends := k; consecutive_failures := 0;
                     token_refresh_counter := 0 |}) as (Hsub & _).
    destruct (loop_from cycles _) as [[s tr] reason]. exact Hsub.
  - intros n m k. exists (distinct_purchases n).
    pose proof (anatomy (distinct_purchases n) m k) as (Hseen & _). simpl in Hseen.
    destruct (distinct_purchases_ids n) as (Hp & Hnd & Hlen).
    rewrite Hseen, Hp. etrans; [|apply subseteq_size, union_subseteq_r].
    unfold ids. rewrite size_list_to_set by exact Hnd.
    rewrite length_fmap, Hlen. reflexivity.
Qed.

Local Abbreviation one_cycle :=
  (loop_body py_float fromisoformat date_isoformat format_message transport).

(** What one cycle does to the failure counter. *)
Lemma loop_body_failures c s :
  match body c with
  | TokenFailed | Raised =>
      consecutive_failures (one_cycle c s).1.1 = S (consecutive_failures s) /\
      ((one_cycle c s).2 = Some TooManyFailures <->
       (max_consecutive_failures <= S (consecutive_failures s))%nat) /\
      ((one_cycle c s).2 = None <->
       (S (consecutive_failures s) < max_consecutive_failures)%nat)
  | Fetched auth_token net =>
      consecutive_failures (one_cycle c s).1.1 = O /\
      (one_cycle c s).2 = None /\
      ((fetch_market_actions config.RETRY_ATTEMPTS config.REQUEST_TIMEOUT
          auth_token net).1 = None ->
       ERefreshToken ∈ (one_cycle c s).1.2 /\
       token_refresh_counter (one_cycle c s).1.1 = O /\
       mon (one_cycle c s).1.1 = set_last_check_time (Some (now_iso c)) (mon s))
  | Interrupted =>
      consecutive_failures (one_cycle c s).1.1 = consecutive_failures s /\
      (one_cycle c s).2 = Some KeyboardInterrupt
  end.
Proof.
  unfold loop_body.
  destruct (body c) as [|auth_token net| |].
  - cbn [fst snd consecutive_failures]. split; [reflexivity|].
    destruct (max_consecutive_failures <=? S (consecutive_failures s))%nat eqn:Hle.
    + apply Nat.leb_le in Hle. split; split; [auto|auto|discriminate|lia].
    + apply Nat.leb_gt in Hle. split; split; [discriminate|lia|auto|auto].
  - destruct (fetch_market_actions _ _ auth_token net) as [[actions|] tr1].
    + destruct (process actions (mon s) (sends s)) as [[m k] tr].
      cbn [fst snd consecutive_failures]. split; [reflexivity|].
      split; [reflexivity|]. intros H. discriminate H.
    + cbn [Nat.leb fst snd consecutive_failures token_refresh_counter mon].
      split; [reflexivity|]. split; [reflexivity|]. intros _.
      split; [|split; reflexivity].
      rewrite !elem_of_app. right. right. left. apply list_elem_of_here.
  - destruct (max_consecutive_failures <=? S (consecutive_failures s))%nat eqn:Hle;
      cbn [fst snd consecutive_failures]; (split; [reflexivity|]).
    + apply Nat.leb_le in Hle. split; split; [auto|auto|discriminate|lia].
    + apply Nat.leb_gt in Hle. split; split; [discriminate|lia|auto|auto].
  - cbn [fst snd consecutive_failures]. split; reflexivity.
Qed.

Lemma loop_from_failures cycles : forall s,
  (consecutive_failures s < max_consecutive_failures)%nat ->
  ((loop_from cycles s).2 = Break TooManyFailures ->
   consecutive_failures (loop_from cycles s).1.1 = max_consecutive_failures) /\
  ((loop_from cycles s).2 <> Break TooManyFailures ->
   (consecutive_failures (loop_from cycles s).1.1 < max_consecutive_failures)%nat).
Proof.
  induction cycles as [|c rest IH]; intros s Hlt.
  - simpl. split; [discriminate|auto].
  - simpl. destruct (running c); cbn [negb]; [|simpl; split; [discriminate|auto]].
    pose proof (loop_body_failures c s) as Hb.
    destruct (one_cycle c s) as [[s1 tr1] stop]. cbn [fst snd] in Hb.
    assert (Hstep : match stop with
                    | Some TooManyFailures =>
                        consecutive_failures s1 = max_consecutive_failures
                    | _ => (consecutive_failures s1 < max_consecutive_failures)%nat
                    end).
    { destruct (body c).
      - destruct Hb as (Hcf & Hstop & Hgo). destruct stop as [[|]|].
        + destruct Hstop as [Hstop _]. specialize (Hstop eq_refl). lia.
        + destruct Hstop as [_ Hstop]. destruct Hgo as [_ Hgo].
          destruct (le_lt_dec max_consecutive_failures (S (consecutive_failures s)))
            as [Hle|Hle]; [specialize (Hstop Hle)|specialize (Hgo Hle)]; discriminate.
        + destruct Hgo as [Hgo _]. specialize (Hgo eq_refl). lia.
      - destruct Hb as (-> & -> & _). unfold max_consecutive_failures. lia.
      - destruct Hb as (Hcf & Hstop & Hgo). destruct stop as [[|]|].
        + destruct Hstop as [Hstop _]. specialize (Hstop eq_refl). lia.
        + destruct Hstop as [_ Hstop]. destruct Hgo as [_ Hgo].
          destruct (le_lt_dec max_consecutive_failures (S (consecutive_failures s)))
            as [Hle|Hle]; [specialize (Hstop Hle)|specialize (Hgo Hle)]; discriminate.
        + destruct Hgo as [Hgo _]. specialize (Hgo eq_refl). lia.
      - destruct Hb as (-> & ->). exact Hlt. }
    destruct stop as [[|]|].
    + simpl. split; [auto|congruence].
    + simpl. split; [discriminate|auto].
    + specialize (IH s1 Hstep).
      destruct (loop_from rest s1) as [[s2 tr2] reason]. exact IH.
Qed.

(** C7 (amended). A cycle whose token acquisition fails, or that raises,
    adds one to [consecutive_failures]; a cycle that reaches the fetch
    leaves it at zero, whether the fetch succeeds or fails, and a failed
    fetch triggers a token refresh instead. The loop breaks for too many
    failures exactly when the counter, so incremented, reaches the loop's
    threshold [max_consecutive_failures]; a run that starts at zero ends
    with the counter at the threshold when it broke for that reason, and
    below it otherwise. *)
Theorem C7_failure_counter :
  (forall c s,
     match body c with
     | TokenFailed | Raised =>
         consecutive_failures (one_cycle c s).1.1 = S (consecutive_failures s) /\
         ((one_cycle c s).2 = Some TooManyFailures <->
          (max_consecutive_failures <= S (consecutive_failures s))%nat)
     | Fetched auth_token net =>
         consecutive_failures (one_cycle c s).1.1 = O /\
         (one_cycle c s).2 = None /\
         ((fetch_market_actions config.RETRY_ATTEMPTS config.REQUEST_TIMEOUT
             auth_token net).1 = None ->
          ERefreshToken ∈ (one_cycle c s).1.2)
     | Interrupted =>
         consecutive_failures (one_cycle c s).1.1 = consecutive_failures s /\
         (one_cycle c s).2 = Some KeyboardInterrupt
     end) /\
  (forall cycles m k,
     ((loop cycles m k).2 = Break TooManyFailures ->
      consecutive_failures (loop cycles m k).1.1 = max_consecutive_failures) /\
     ((loop cycles m k).2 <> Break TooManyFailures ->
      (consecutive_failures (loop cycles m k).1.1 < max_consecutive_failures)%nat)).
Proof.
  split.
  - intros c s. pose proof (loop_body_failures c s) as H.
    destruct (body c); intuition.
  - intros cycles m k. unfold monitoring_loop. apply loop_from_failures.
    unfold max_consecutive_failures. simpl. lia.
Qed.

(** The rate limiter's counters are never advanced: a cycle leaves
    [message_timestamps], [daily_message_count] and [last_daily_reset]
    as they were. *)
Lemma process_leaves_rate_counters actions m k :
  message_timestamps (process actions m k).1.1 = message_timestamps m /\
  daily_message_count (process actions m k).1.1 = daily_message_count m /\
  last_daily_reset (process actions m k).1.1 = last_daily_reset m.
Proof.
  pose proof (anatomy actions m k) as (_ & H1 & H2 & H3 & _). auto.
Qed.

End Claims.

(** ** The claims on the scenarios *)

(** The cold start, down to the transport: five bodies are sent, the
    150 TON sale is pinned, the two oldest actions are only marked seen,
    and the timestamp is that of the newest action. *)
Example cold_start_five_messages :
  let '(m, k, tr) := Run.after_cold_start in
  length (sent tr) = 5%nat /\
  k = 5%nat /\
  notified tr = take 5 Run.cold_start /\
  In (EPin 3) tr /\
  last_processed_timestamp m = Some "2024-06-01T12:00:00Z" /\
  initial_batch_sent m = true /\
  size (seen_actions m) = 7%nat /\
  size (price_history m) = 5%nat.
Proof. vm_compute. repeat split. repeat (try (left; reflexivity); right). Qed.

(** C2 (code defect). No send passes through [check_rate_limits] and no
    send is ever counted: when nine new purchases arrive together after
    the cold start, the steady-state branch sends nine messages half a
    second apart. With one second per send they all fall in a window of
    sixty seconds, above [MAX_MESSAGES_PER_MINUTE]; the limiter's counters
    are still empty afterwards and [check_rate_limits] still allows. *)
Theorem C2_burst_exceeds_minute_limit :
  let '(m, k, tr) := Run.process Fixture.accepting Run.burst
                       Run.after_cold_start.1.1 Run.after_cold_start.1.2 in
  let times := send_times 1 Run.burst_start tr in
  let now := (Run.burst_start + 13)%Q in
  length (sent tr) = 9%nat /\
  length (in_window 60 now times) = 9%nat /\
  (config.MAX_MESSAGES_PER_MINUTE < 9)%nat /\
  message_timestamps m = [] /\
  daily_message_count m = 0%Z /\
  (check_rate_limits now m).2 = true.
Proof. vm_compute. repeat split. lia. Qed.

(** C3 on the cold start. *)
Lemma C3_bootstrap_batch_witness :
  initial_batch_sent Run.new_monitor = false /\
  notified Run.after_cold_start.2 = take 5 Run.cold_start /\
  length (notified Run.after_cold_start.2) = 5%nat /\
  last_processed_timestamp Run.after_cold_start.1.1 = Some "2024-06-01T12:00:00Z" /\
  length (sent Run.after_cold_start.2) = 5%nat /\
  Run.after_cold_start.1.2 = 5%nat.
Proof.
  split; [reflexivity|].
  destruct (C3_bootstrap_batch Fixture.py_float Fixture.fromisoformat
              Fixture.date_isoformat Fixture.format_message Fixture.accepting
              Run.cold_start Run.new_monitor 0 eq_refl) as [_ H].
  destruct H as (_ & Hn & Hlen & _ & _ & Hl & _ & Hsend).
  - reflexivity.
  - reflexivity.
  - repeat constructor.
  - apply (bool_decide_unpack (NoDup (nft_id <$> Run.cold_start))).
    vm_compute. exact I.
  - repeat constructor.
  - destruct Hsend as (bodies & _ & _ & _ & Hcalls & Hno).
    + reflexivity.
    + apply (bool_decide_unpack
               (Forall (fun a => is_Some (Fixture.py_float (amount a)) /\
                                 is_Some (Fixture.format_message a)) Run.cold_start)).
      vm_compute. exact I.
    + assert (Hkeys : Forall (fun a =>
                Forall (fun b => String.prefix (nft_name b +:+ "_") (nft_id a) = false)
                       Run.cold_start) Run.cold_start).
      { apply (bool_decide_unpack _). vm_compute. exact I. }
      intros a b Ha Hb.
      exact (proj1 (Forall_forall _ _) (proj1 (Forall_forall _ _) Hkeys a Ha) b Hb).
    + destruct Hno as [_ Hfive]; [intros i; reflexivity|].
      split; [exact Hn|]. split; [exact Hlen|]. split; [exact Hl|].
      split; [exact Hfive|exact Hcalls].
Defined.

(** C5 as stated fails: the cold start emits its five actions newest
    first, in strictly decreasing order of [created_at]. *)
Lemma C5_counterexample :
  notified Run.after_cold_start.2 = take 5 Run.cold_start /\
  created_at <$> notified Run.after_cold_start.2 =
    [ "2024-06-01T12:00:00Z"; "2024-06-01T11:59:50Z"; "2024-06-01T11:59:40Z";
      "2024-06-01T11:59:30Z"; "2024-06-01T11:59:20Z" ] /\
  String.ltb "2024-06-01T11:59:50Z" "2024-06-01T12:00:00Z" = true.
Proof. vm_compute. repeat split. Qed.

(** C5 (amended) on the burst after the cold start. *)
Lemma C5_api_order_and_growing_timestamp_witness :
  let m := Run.after_cold_start.1.1 in
  let k := Run.after_cold_start.1.2 in
  initial_batch_sent m = true /\
  last_processed_timestamp m = Some "2024-06-01T12:00:00Z" /\
  "2024-06-01T12:00:00Z" <> "" /\
  notified (Run.process Fixture.accepting Run.burst m k).2 = Run.burst /\
  last_processed_timestamp (Run.process Fixture.accepting Run.burst m k).1.1 =
    Some "2024-06-01T12:01:08Z".
Proof.
  intros m k.
  assert (Hibs : initial_batch_sent m = true) by (vm_compute; reflexivity).
  assert (Hl : last_processed_timestamp m = Some "2024-06-01T12:00:00Z")
    by (vm_compute; reflexivity).
  assert (Hne : "2024-06-01T12:00:00Z" <> "") by discriminate.
  split; [exact Hibs|]. split; [exact Hl|]. split; [exact Hne|].
  destruct (C5_api_order_and_growing_timestamp Fixture.py_float Fixture.fromisoformat
              Fixture.date_isoformat Fixture.format_message Fixture.accepting)
    as (_ & _ & H).
  destruct (H Run.burst m k "2024-06-01T12:00:00Z" Hibs Hl Hne) as (Hn & _ & Hlast).
  split.
  - unfold Run.process. rewrite Hn. vm_compute. reflexivity.
  - unfold Run.process. rewrite Hlast. vm_compute. reflexivity.
Defined.

(** C7 as stated fails: twelve cycles in a row whose fetch fails leave
    the counter at zero and the loop running, and the first of them
    already does not count. *)
Lemma C7_counterexample :
  let r := Run.loop Fixture.accepting (replicate 12 Run.failing_fetch)
             Run.new_monitor 0 in
  (fetch_market_actions config.RETRY_ATTEMPTS config.REQUEST_TIMEOUT
     (Some "tma token") (fun _ => Response 500 None)).1 = None /\
  consecutive_failures r.1.1 = 0%nat /\
  r.2 = StillRunning /\
  consecutive_failures
    (Run.loop Fixture.accepting [Run.failing_fetch] Run.new_monitor 0).1.1 = 0%nat /\
  (config.MAX_CONSECUTIVE_FAILURES <= 12)%nat.
Proof. vm_compute. repeat split. lia. Qed.

(** C9 on the newest sale of the cold start, refused by the transport. *)
Lemma C9_failed_send_is_recorded_witness :
  let a := Fixture.purchase "gift-7" "Plush Pepe" 7 "12.5" "2024-06-01T12:00:00Z" in
  let m := set_seen_actions {[action_id a]} Run.new_monitor in
  let m' := (send_single_notification Fixture.py_float Fixture.fromisoformat
               Fixture.format_message Run.refusing a m 0).1.1 in
  is_Some (price_history m' !! "gift-7") /\
  (action_id a ∈ seen_actions m') /\
  notified (Run.loop Run.refusing
              [ {| running := true; token_age_exceeded := false;
                   body := Fetched (Some "tma token")
                             (fun _ => Response 200 (Some (Some [a])));
                   now_iso := "2024-06-01T12:00:05" |} ] m' 1).1.2 = [].
Proof.
  intros a m m'.
  assert (Hc : is_duplicate_or_price_change Fixture.py_float Fixture.fromisoformat
                 (price_history m) a = Some (false, false)) by reflexivity.
  assert (Hin : action_id a ∈ seen_actions m).
  { unfold m. cbn [seen_actions set_seen_actions]. apply elem_of_singleton_2.
    reflexivity. }
  destruct (C9_failed_send_is_recorded Fixture.py_float Fixture.fromisoformat
              Fixture.date_isoformat Fixture.format_message Run.refusing
              a m 0 false _ Hc eq_refl eq_refl Hin) as (_ & (r & Hr & _) & Hseen & _).
  split; [exists r; exact Hr|]. split; [exact Hseen|].
  vm_compute. reflexivity.
Defined.

(** * Further properties of the code *)

From Stdlib Require Import Lqa.

(** ** Arithmetic on prices and instants *)

Lemma Qlt_bool_lt a b : Qlt_bool a b = true <-> (a < b)%Q.
Proof.
  unfold Qlt_bool. rewrite negb_true_iff. split.
  - intros H. apply Qnot_le_lt. intros Hle. apply Qle_bool_iff in Hle. congruence.
  - intros H. destruct (Qle_bool b a) eqn:E; [|reflexivity].
    apply Qle_bool_iff in E. lra.
Qed.

Lemma Qlt_bool_ge a b : Qlt_bool a b = false <-> (b <= a)%Q.
Proof.
  unfold Qlt_bool. rewrite negb_false_iff. apply Qle_bool_iff.
Qed.

Lemma same_price_within_threshold p :
  Qlt_bool (Qabs (p - p)) config.PRICE_CHANGE_THRESHOLD = true.
Proof.
  apply Qlt_bool_lt. assert (H : (p - p == 0)%Q) by lra.
  rewrite H. reflexivity.
Qed.

(** ** Dedup, price tracker and publisher *)

Lemma pinned_flat_map message retries :
  pinned (flat_map (fun d => [ESend message; ESleep d]) retries ++ [ESend message]) = [].
Proof. induction retries as [|d l IH]; [reflexivity|exact IH]. Qed.

Section Notification.

Variable py_float : string -> option Q.
Variable fromisoformat : string -> option datetime.
Variable format_message : action -> option string.
Variable transport : nat -> send_script.

Local Abbreviation classify :=
  (is_duplicate_or_price_change py_float fromisoformat).
Local Abbreviation notify :=
  (send_single_notification py_float fromisoformat format_message transport).

Lemma update_price_history_record h a p :
  py_float (amount a) = Some p ->
  update_price_history py_float h a (action_id a) =
    Some (<[nft_id a := record_of a p]> h).
Proof. intros Hp. unfold update_price_history. rewrite Hp. reflexivity. Qed.



(** What [send_single_notification] does, case by case. *)
Lemma send_single_notification_cases a m k :
  match classify (price_history m) a, format_message a with
  | Some (false, _), Some message =>
      exists p, py_float (amount a) = Some p /\
      (notify a m k).1.2 = S k /\
      sent (notify a m k).2 =
        replicate (S (length (retries (transport k)))) message /\
      match final (transport k) with
      | FHandle x =>
          (notify a m k).1.1 =
            set_price_history (<[nft_id a := record_of a p]> (price_history m)) m /\
          pinned (notify a m k).2 =
            if Qle_bool config.PIN_MESSAGE_THRESHOLD p then [x] else []
      | FApiError =>
          (notify a m k).1.1 =
            set_price_history (<[nft_id a := record_of a p]> (price_history m)) m /\
          pinned (notify a m k).2 = []
      | FOther =>
          (notify a m k).1.1 = m /\ pinned (notify a m k).2 = []
      end
  | _, _ => notify a m k = (m, k, [ENotify a])
  end.
Proof.
  unfold send_single_notification.
  destruct (classify (price_history m) a) as [[[|] c]|] eqn:Hc; try reflexivity.
  destruct (format_message a) as [message|]; [|reflexivity].
  assert (Hp : exists p, py_float (amount a) = Some p).
  { unfold is_duplicate_or_price_change in Hc.
    destruct (py_float (amount a)) as [p|]; [eauto|discriminate]. }
  destruct Hp as [p Hp]. exists p. split; [exact Hp|].
  pose proof (send_telegram_message_trace message (retries (transport k))
                (final (transport k))) as Ht.
  pose proof (send_telegram_message_outcome message (retries (transport k))
                (final (transport k))) as Ho.
  destruct (send_telegram_message message _ _) as [outcome tr].
  cbn [fst snd] in Ht, Ho. subst outcome.
  assert (Hsent : sent (ENotify a :: tr) =
                  replicate (S (length (retries (transport k)))) message).
  { subst tr. change (sent (ENotify a :: ?l)) with (sent l). apply sent_flat_map. }
  assert (Hpin : pinned tr = []) by (subst tr; apply pinned_flat_map).
  rewrite (update_price_history_record _ _ _ Hp), Hp.
  destruct (final (transport k)) as [x| |]; cbn [fst snd].
  - split; [reflexivity|]. split.
    + change (ENotify a :: ?l1 ++ ?l2) with ((ENotify a :: l1) ++ l2).
      rewrite sent_app, Hsent. unfold pin_message_if_high_value.
      destruct (Qle_bool _ _); cbn [sent omap]; apply app_nil_r.
    + split; [reflexivity|].
      change (pinned (ENotify a :: ?l)) with (pinned l).
      unfold pinned in *. rewrite omap_app, Hpin. unfold pin_message_if_high_value.
      destruct (Qle_bool _ _); reflexivity.
  - split; [reflexivity|]. rewrite app_nil_r. split; [exact Hsent|].
    split; [reflexivity|exact Hpin].
  - split; [reflexivity|]. split; [exact Hsent|]. split; [reflexivity|exact Hpin].
Qed.





End Notification.

(** ** Retention purge *)

Section Purge.

Variable fromisoformat : string -> option datetime.

Local Abbreviation purge := (cleanup_old_price_history fromisoformat).

(** An entry expired at some instant is expired at every later one. *)
Lemma expired_later now later r :
  (now <= later)%Q ->
  expired fromisoformat now r = true -> expired fromisoformat later r = true.
Proof.
  intros Hle. unfold expired.
  set (c := inject_Z (config.DUPLICATE_MEMORY_HOURS * 3600)).
  assert (Hlt : forall w, Qlt_bool w (now - c) = true -> Qlt_bool w (later - c) = true).
  { intros w. rewrite !Qlt_bool_lt. lra. }
  destruct (str_contains _ _ || str_contains _ _).
  - destruct (fromisoformat _) as [ts|]; [apply Hlt|auto].
  - destruct (fromisoformat _) as [ts|]; [|auto].
    destruct (utcoffset ts); [auto|apply Hlt].
Qed.


End Purge.

(** ** Rate limiter *)

Lemma filter_length_le {A} (P : A -> Prop) `{forall x, Decision (P x)} (l : list A) :
  (length (filter P l) <= length l)%nat.
Proof. apply sublist_length, sublist_filter. Qed.



(** ** State snapshot and scheduler *)

Lemma collect_new_none l : forall seen,
  (forall a, a ∈ l -> action_id a ∈ seen) -> collect_new seen l = ([], seen).
Proof.
  induction l as [|a l IH]; intros seen Hall; simpl; [reflexivity|].
  rewrite bool_decide_eq_true_2 by (apply Hall; left).
  apply IH. intros b Hb. apply Hall. right. exact Hb.
Qed.

Lemma fresh_none m actions :
  fresh m actions = [] <-> ids (purchases actions) ⊆ seen_actions m.
Proof.
  unfold fresh. split.
  - intros HN x Hx. unfold ids in Hx.
    apply elem_of_list_to_set, list_elem_of_fmap in Hx as (a & -> & Ha).
    revert Ha HN. generalize (seen_actions m). generalize (purchases actions).
    induction l as [|b l IH]; intros seen Ha; [inversion Ha|]. simpl.
    case_bool_decide as Hin.
    + apply elem_of_cons in Ha as [->|Ha]; [auto|]. apply IH. exact Ha.
    + destruct (collect_new ({[action_id b]} ∪ seen) l). discriminate.
  - intros Hsub. rewrite collect_new_none; [reflexivity|].
    intros a Ha. apply Hsub. unfold ids.
    apply elem_of_list_to_set, list_elem_of_fmap. eauto.
Qed.

Lemma saved_send_telegram_message message retries final :
  saved (send_telegram_message message retries final).2 = [].
Proof.
  rewrite send_telegram_message_trace. unfold saved. rewrite omap_app.
  induction retries as [|d l IH]; [reflexivity|exact IH].
Qed.

Section Cycle.

Variable py_float : string -> option Q.
Variable fromisoformat : string -> option datetime.
Variable date_isoformat : Z -> string.
Variable format_message : action -> option string.
Variable transport : nat -> send_script.

Local Abbreviation classify :=
  (is_duplicate_or_price_change py_float fromisoformat).
Local Abbreviation notify :=
  (send_single_notification py_float fromisoformat format_message transport).
Local Abbreviation each :=
  (send_each py_float fromisoformat format_message transport).
Local Abbreviation process :=
  (process_new_actions py_float fromisoformat date_isoformat format_message transport).
Local Abbreviation loop_from :=
  (monitoring_loop_from py_float fromisoformat date_isoformat format_message transport).
Local Abbreviation one_cycle :=
  (loop_body py_float fromisoformat date_isoformat format_message transport).
Local Abbreviation save := (save_state date_isoformat).
Local Abbreviation load := (load_state fromisoformat).
Local Abbreviation start := (init fromisoformat).

(** One notification makes at most one send call, writes no snapshot,
    and at most writes the entry of its action in the history. *)
Lemma send_single_notification_steps a m k :
  (k <= (notify a m k).1.2 <= S k)%nat /\
  saved (notify a m k).2 = [] /\
  (price_history (notify a m k).1.1 = price_history m \/
   exists p, price_history (notify a m k).1.1 =
             <[nft_id a := record_of a p]> (price_history m)).
Proof.
  pose proof (send_single_notification_cases py_float fromisoformat format_message
                transport a m k) as H.
  assert (Hquiet : notify a m k = (m, k, [ENotify a]) ->
            (k <= (notify a m k).1.2 <= S k)%nat /\
            saved (notify a m k).2 = [] /\
            (price_history (notify a m k).1.1 = price_history m \/
             exists p, price_history (notify a m k).1.1 =
                       <[nft_id a := record_of a p]> (price_history m))).
  { intros ->. cbn. split; [lia|]. split; [reflexivity|left; reflexivity]. }
  destruct (classify (price_history m) a) as [[[|] c]|] eqn:Hc; try (apply Hquiet, H).
  destruct (format_message a) as [message|] eqn:Hf; [|apply Hquiet, H].
  destruct H as (p & Hp & Hk & _ & H). rewrite Hk. split; [lia|]. split.
  - unfold send_single_notification. rewrite Hc, Hf.
    pose proof (saved_send_telegram_message message (retries (transport k))
                  (final (transport k))) as Hs.
    destruct (send_telegram_message message _ _) as [outcome tr]. cbn [snd] in Hs.
    assert (Hpin : forall x q, saved (ENotify a :: tr ++
                                      pin_message_if_high_value x q) = []).
    { intros x q. change (ENotify a :: ?l1 ++ ?l2) with ([ENotify a] ++ l1 ++ l2).
      unfold saved in *. rewrite !omap_app, Hs. unfold pin_message_if_high_value.
      destruct (Qle_bool config.PIN_MESSAGE_THRESHOLD q); reflexivity. }
    assert (Hn : saved (ENotify a :: tr) = []) by exact Hs.
    destruct outcome as [x| |]; rewrite ?Hp;
      try destruct (update_price_history py_float (price_history m) a (action_id a));
      cbn [snd]; rewrite ?app_nil_r; first [apply Hpin | exact Hn].
  - destruct (final (transport k)); destruct H as [-> _]; cbn; eauto.
Qed.

Lemma send_each_steps delay l : forall m k,
  (k <= (each delay l m k).1.2 <= k + length l)%nat /\
  saved (each delay l m k).2 = [] /\
  dom (price_history m) ⊆ dom (price_history (each delay l m k).1.1).
Proof.
  induction l as [|a l IH]; intros m k; simpl.
  - split; [lia|]. split; reflexivity.
  - pose proof (send_single_notification_steps a m k) as (Hk & Hs & Hh).
    destruct (notify a m k) as [[m1 k1] t1]. cbn [fst snd] in Hk, Hs, Hh.
    specialize (IH m1 k1) as (Hk' & Hs' & Hh').
    destruct (each delay l m1 k1) as [[m2 k2] t2]. cbn [fst snd] in *.
    split; [lia|]. split.
    + change (t1 ++ ESleep delay :: t2) with (t1 ++ [ESleep delay] ++ t2).
      unfold saved in *. rewrite !omap_app, Hs, Hs'. reflexivity.
    + etrans; [|exact Hh']. destruct Hh as [->|[p ->]]; [reflexivity|].
      rewrite dom_insert. set_solver.
Qed.

(** A cycle is one send loop, started on the history as the cycle found
    it, followed at most by the snapshot of the final state. *)
Lemma process_runs_one_send_loop actions m k :
  exists m0 delay batch tail,
    price_history m0 = price_history m /\
    (process actions m k).2 = (each delay batch m0 k).2 ++ tail /\
    (tail = [] \/ tail = [ESave (save (process actions m k).1.1)]) /\
    (fresh m actions <> [] -> tail = [ESave (save (process actions m k).1.1)]) /\
    price_history (process actions m k).1.1 =
      price_history (each delay batch m0 k).1.1 /\
    (process actions m k).1.2 = (each delay batch m0 k).1.2.
Proof.
  assert (Hquiet : forall m1 : monitor,
            price_history m1 = price_history m ->
            fresh m actions = [] ->
            exists m0 delay batch tail,
              price_history m0 = price_history m /\
              (m1, k, @nil effect).2 = (each delay batch m0 k).2 ++ tail /\
              (tail = [] \/ tail = [ESave (save (m1, k, @nil effect).1.1)]) /\
              (fresh m actions <> [] ->
               tail = [ESave (save (m1, k, @nil effect).1.1)]) /\
              price_history (m1, k, @nil effect).1.1 =
                price_history (each delay batch m0 k).1.1 /\
              (m1, k, @nil effect).1.2 = (each delay batch m0 k).1.2).
  { intros m1 Hm1 HN. exists m1, 1%Q, [], []. cbn. repeat split; auto. congruence. }
  unfold fresh in *. unfold process_new_actions. fold (purchases actions).
  destruct actions as [|a0 actions0]; [apply Hquiet; reflexivity|].
  remember (purchases (a0 :: actions0)) as P eqn:HP. clear HP.
  destruct P as [|p P']; [apply Hquiet; reflexivity|].
  remember (p :: P') as P eqn:HP. cbv beta iota zeta.
  destruct (collect_new (seen_actions m) P) as [N seen'] eqn:Hc. cbn [fst] in *.
  destruct N as [|first N1].
  { apply Hquiet; [|reflexivity]. destruct (waiting_for_new_sales _); reflexivity. }
  set (m0 := if waiting_for_new_sales (set_seen_actions seen' m)
             then set_waiting_for_new_sales false (set_seen_actions seen' m)
             else set_seen_actions seen' m).
  assert (Hs0 : price_history m0 = price_history m).
  { subst m0. destruct (waiting_for_new_sales _); reflexivity. }
  clearbody m0.
  destruct (negb (initial_batch_sent m0)).
  - exists m0, 1%Q, (take 5 (first :: N1)).
    destruct (each 1 (take 5 (first :: N1)) m0 k) as [[m1 k1] tr1].
    eexists. split; [exact Hs0|]. split; [reflexivity|].
    split; [right; reflexivity|]. split; [reflexivity|]. split; reflexivity.
  - set (N' := if truthy (last_processed_timestamp m0) then filter _ (first :: N1)
               else first :: N1).
    clearbody N'. destruct N' as [|newest N1'].
    + exists m0, (1 # 2)%Q, []. eexists. split; [exact Hs0|]. split; [reflexivity|].
      split; [right; reflexivity|]. split; [reflexivity|]. split; reflexivity.
    + exists m0, (1 # 2)%Q, (newest :: N1').
      destruct (each (1 # 2) (newest :: N1') m0 k) as [[m1 k1] tr1].
      eexists. split; [exact Hs0|]. split; [reflexivity|].
      split; [right; reflexivity|]. split; [reflexivity|]. split; reflexivity.
Qed.

(** What [load_state] reads back from what [save_state] wrote. *)
Lemma load_save_fields today m m0 :
  seen_actions (load today (Some (save m)) m0) = seen_actions m /\
  price_history (load today (Some (save m)) m0) = price_history m /\
  last_check_time (load today (Some (save m)) m0) = last_check_time m /\
  initial_batch_sent (load today (Some (save m)) m0) = initial_batch_sent m0 /\
  last_processed_timestamp (load today (Some (save m)) m0) =
    last_processed_timestamp m0 /\
  waiting_for_new_sales (load today (Some (save m)) m0) = waiting_for_new_sales m0 /\
  message_timestamps (load today (Some (save m)) m0) = message_timestamps m0.
Proof.
  unfold load_state, save_state. cbn [s_last_daily_reset s_seen_actions
    s_price_history s_last_check_time s_daily_message_count default from_option].
  assert (Hset : list_to_set (elements (seen_actions m)) = seen_actions m)
    by apply list_to_set_elements_L.
  destruct (String.eqb _ _); [cbn; rewrite Hset; auto 10|].
  destruct (fromisoformat _) as [d|]; [|cbn; rewrite Hset; auto 10].
  destruct (bool_decide _); cbn; rewrite Hset; auto 10.
Qed.



Lemma process_without_new_actions actions m k :
  fresh m actions = [] ->
  process actions m k =
    (if bool_decide (purchases actions = []) then m
     else set_waiting_for_new_sales true m, k, []).
Proof.
  intros HN. pose proof (proj1 (fresh_none m actions) HN) as Hsub.
  unfold process_new_actions. fold (purchases actions).
  destruct actions as [|a0 actions0]; [reflexivity|].
  remember (purchases (a0 :: actions0)) as P eqn:HP. clear HP.
  destruct P as [|p P']; [reflexivity|].
  rewrite bool_decide_eq_false_2 by discriminate.
  remember (p :: P') as P eqn:HP. cbv beta iota zeta.
  rewrite collect_new_none.
  2:{ intros a Ha. apply Hsub. unfold ids.
      apply elem_of_list_to_set, list_elem_of_fmap. eauto. }
  destruct m as [s h lc ib lp w mt dc dr]. destruct w; reflexivity.
Qed.





Lemma process_keeps_history_keys actions m k :
  dom (price_history m) ⊆ dom (price_history (process actions m k).1.1).
Proof.
  destruct (process_runs_one_send_loop actions m k)
    as (m0 & delay & batch & tail & Hm0 & _ & _ & _ & Hph & _).
  destruct (send_each_steps delay batch m0 k) as (_ & _ & Hdom).
  rewrite Hph, <- Hm0. exact Hdom.
Qed.



End Cycle.

(** ** Supervisor loop and API client *)

Section Supervisor.

Variable py_float : string -> option Q.
Variable fromisoformat : string -> option datetime.
Variable date_isoformat : Z -> string.
Variable format_message : action -> option string.
Variable transport : nat -> send_script.

Local Abbreviation loop_from :=
  (monitoring_loop_from py_float fromisoformat date_isoformat format_message transport).
Local Abbreviation one_cycle :=
  (loop_body py_float fromisoformat date_isoformat format_message transport).

(** A property of the loop state that every cycle keeps holds along
    every run. *)
Lemma loop_state_invariant (I : loop_state -> Prop) :
  (forall c s, I s -> I (one_cycle c s).1.1) ->
  forall cycles s, I s -> I (loop_from cycles s).1.1.
Proof.
  intros Hstep. induction cycles as [|c rest IH]; intros s Hs; [exact Hs|].
  simpl. destruct (running c); cbn [negb]; [|exact Hs].
  pose proof (Hstep c s Hs) as H1.
  destruct (one_cycle c s) as [[s1 tr1] stop]. cbn [fst] in H1.
  destruct stop as [reason|]; [exact H1|].
  specialize (IH s1 H1). destruct (loop_from rest s1) as [[s2 tr2] reason]. exact IH.
Qed.

Lemma loop_body_counter_value c s :
  let refresh := token_age_exceeded c || (720 <=? token_refresh_counter s)%nat in
  let counter := if refresh then O else token_refresh_counter s in
  token_refresh_counter (one_cycle c s).1.1 =
    match body c with
    | Fetched auth_token net =>
        match (fetch_market_actions config.RETRY_ATTEMPTS config.REQUEST_TIMEOUT
                 auth_token net).1 with
        | Some _ => S counter
        | None => O
        end
    | _ => counter
    end /\
  (refresh = true -> head (one_cycle c s).1.2 = Some ERefreshToken).
Proof.
  intros refresh counter. unfold loop_body. fold refresh. fold counter.
  destruct (body c) as [|auth_token net| |].
  - split; [reflexivity|]. intros ->. reflexivity.
  - destruct (fetch_market_actions _ _ auth_token net) as [[actions|] tr1].
    + destruct (process_new_actions _ _ _ _ _ actions _ _) as [[m k] tr].
      split; [reflexivity|]. intros ->. reflexivity.
    + split; [reflexivity|]. intros ->. reflexivity.
  - destruct (max_consecutive_failures <=? S (consecutive_failures s))%nat;
      (split; [reflexivity|]); intros ->; reflexivity.
  - split; [reflexivity|]. intros ->. reflexivity.
Qed.

Lemma loop_body_counter c s :
  (token_refresh_counter s <= 720)%nat ->
  (token_refresh_counter (one_cycle c s).1.1 <= 720)%nat /\
  (token_refresh_counter s = 720%nat \/ token_age_exceeded c = true ->
   head (one_cycle c s).1.2 = Some ERefreshToken).
Proof.
  intros Hle. destruct (loop_body_counter_value c s) as [Hv Hr]. split.
  - rewrite Hv.
    assert (Hc : ((if token_age_exceeded c || (720 <=? token_refresh_counter s)%nat
                   then O else token_refresh_counter s) < 720)%nat).
    { destruct (token_age_exceeded c); cbn [orb]; [lia|].
      destruct (720 <=? token_refresh_counter s)%nat eqn:E; [lia|].
      apply Nat.leb_gt in E. exact E. }
    destruct (body c) as [|auth_token net| |]; try lia.
    destruct (fetch_market_actions _ _ _ _).1; lia.
  - intros [Heq|Heq]; apply Hr.
    + rewrite Heq. apply orb_true_r.
    + rewrite Heq. reflexivity.
Qed.



End Supervisor.

(** The first attempt that gets a parsed 200 ends [fetch_market_actions]
    with the actions of that body (none when the body has no 'actions'
    key): no request follows. *)
Lemma fetch_attempts_success R T net r : forall a i data,
  (a <= i < a + r)%nat ->
  (forall j, (a <= j < i)%nat -> answers (net j) = false) ->
  net i = Response 200 (Some data) ->
  (fetch_attempts R T net a r).1 = Some (default [] data) /\
  length (requested (fetch_attempts R T net a r).2) = S (i - a) /\
  last (fetch_attempts R T net a r).2 = Some (EGet T).
Proof.
  induction r as [|r IH]; intros a i data Hi Hbefore Hnet; [lia|].
  simpl. destruct (decide (i = a)) as [->|Hne].
  - rewrite Hnet. cbn. repeat split. f_equal. lia.
  - specialize (IH (S a) i data ltac:(lia)) as (Hres & Hlen & Hlast);
      [intros j Hj; apply Hbefore; lia|exact Hnet|].
    pose proof (Hbefore a ltac:(lia)) as Ha.
    destruct (fetch_attempts R T net (S a) r) as [res tr] eqn:Hrec.
    cbn [fst snd] in *.
    assert (Htr : tr <> []) by (intros ->; discriminate).
    assert (Hretry : forall bo : trace,
              bo = [] \/ (exists d, bo = [ESleep d]) ->
              length (requested (EGet T :: bo ++ tr)) = S (i - a) /\
              last (EGet T :: bo ++ tr) = Some (EGet T)).
    { intros bo Hbo. split.
      - change (EGet T :: bo ++ tr) with ([EGet T] ++ bo ++ tr).
        unfold requested in *. rewrite !omap_app, !length_app, Hlen.
        destruct Hbo as [->|[d ->]]; simpl; lia.
      - change (EGet T :: bo ++ tr) with (([EGet T] ++ bo) ++ tr).
        rewrite last_app, Hlast. reflexivity. }
    destruct (net a) as [status json|].
    + unfold answers in Ha. destruct (status =? 200)%Z.
      * destruct json as [d|].
        -- apply bool_decide_eq_false in Ha. exfalso. apply Ha. eauto.
        -- cbn [fst snd]. split; [exact Hres|]. apply Hretry.
           destruct (_ <? _)%Z; eauto.
      * rewrite Ha. cbn [fst snd]. split; [exact Hres|]. apply (Hretry []). auto.
    + cbn [fst snd]. split; [exact Hres|]. apply Hretry. destruct (_ <? _)%Z; eauto.
Qed.


(** ** Token store *)

Lemma save_auth_token_token now w token s :
  auth_token (save_auth_token now w token s).1 = auth_token s.1.
Proof. unfold save_auth_token. destruct w; reflexivity. Qed.

Lemma intercept_requests_cases now w r s :
  (_intercept_requests now w r s = s \/
   exists token,
     auth_token (_intercept_requests now w r s).1 = Some token /\
     String.prefix "tma " token = true /\
     token <> "" /\
     Some token <> auth_token s.1 /\
     str_contains (url r) "portals-market.com/api" = true /\
     (_intercept_requests now w r s).2 =
       (if w then Some {| mtime := now; text := Some token |} else s.2) /\
     token_last_updated (_intercept_requests now w r s).1 =
       (if w then Some now else token_last_updated s.1) /\
     token_extraction_in_progress (_intercept_requests now w r s).1 =
       token_extraction_in_progress s.1) /\
  (forall now' w',
     _intercept_requests now' w' r (_intercept_requests now w r s) =
     _intercept_requests now w r s).
Proof.
  unfold _intercept_requests.
  destruct (str_contains (url r) "portals-market.com/api") eqn:Hurl; cbn [andb];
    [|split; [left; reflexivity|intros; reflexivity]].
  destruct (str_contains (url r) "actions");
    [|split; [left; reflexivity|intros; reflexivity]].
  set (auth_header := default "" (authorization r)).
  destruct (negb (String.eqb auth_header "") &&
            (str_contains auth_header "tma " || str_contains auth_header "query_id="))
    eqn:Hh; [|split; [left; reflexivity|intros; reflexivity]].
  apply andb_true_iff in Hh as [Hne _]. apply negb_true_iff, String.eqb_neq in Hne.
  set (new_token := if String.prefix "tma " auth_header then auth_header
                    else "tma " +:+ auth_header).
  assert (Hprefix : String.prefix "tma " new_token = true).
  { subst new_token. destruct (String.prefix "tma " auth_header) eqn:E; [exact E|].
    change ("tma " +:+ auth_header)
      with (String "t" (String "m" (String "a" (String " " auth_header)))).
    cbn. repeat (destruct (ascii_dec _ _) as [_|Hc]; [|exfalso; apply Hc; reflexivity]).
    destruct auth_header; reflexivity. }
  assert (Hnonempty : new_token <> "").
  { subst new_token. destruct (String.prefix "tma " auth_header); [exact Hne|].
    change ("tma " +:+ auth_header)
      with (String "t" (String "m" (String "a" (String " " auth_header)))).
    discriminate. }
  case_bool_decide as Hsame;
    [split; [left; reflexivity
            |intros; rewrite ?bool_decide_eq_true_2 by exact Hsame; reflexivity]|].
  split.
  - right. exists new_token. rewrite save_auth_token_token.
    cbn [fst auth_token set_auth_token].
    split; [reflexivity|]. split; [exact Hprefix|]. split; [exact Hnonempty|].
    split; [exact Hsame|]. split; [reflexivity|].
    unfold save_auth_token. destruct w; repeat split.
  - intros now' w'. rewrite save_auth_token_token. cbn [fst auth_token set_auth_token].
    rewrite bool_decide_eq_true_2 by reflexivity. reflexivity.
Qed.


Lemma all_intercepted_keeps seen_requests : forall s,
  let s' := foldl (fun s i => _intercept_requests (at_time i) (writable i)
                                (intercepted i) s) s seen_requests in
  (truthy (auth_token s.1) = true -> truthy (auth_token s'.1) = true) /\
  token_extraction_in_progress s'.1 = token_extraction_in_progress s.1 /\
  (s' = s \/
   exists token, auth_token s'.1 = Some token /\
                 String.prefix "tma " token = true /\ token <> "").
Proof.
  induction seen_requests as [|i l IH]; intros s; [cbn; auto|].
  cbn [foldl]. cbv zeta.
  destruct (intercept_requests_cases (at_time i) (writable i) (intercepted i) s)
    as [Hc _].
  specialize (IH (_intercept_requests (at_time i) (writable i) (intercepted i) s)).
  cbv zeta in IH. destruct IH as (IH1 & IH2 & IH3).
  destruct Hc as [Hc|(token & Ht & Hp & Hne & _ & _ & _ & _ & Hflag)].
  - rewrite Hc in *. auto.
  - split; [|split].
    + intros _. apply IH1. rewrite Ht. simpl.
      apply negb_true_iff, String.eqb_neq, Hne.
    + rewrite IH2. exact Hflag.
    + right. destruct IH3 as [IH3|IH3]; [|exact IH3].
      exists token. rewrite IH3. auto.
Qed.


Lemma validate_token_trace token probe :
  ERefreshToken ∉ (validate_token token probe).2.
Proof.
  unfold validate_token. destruct (truthy token); [|intros H; inversion H].
  destruct probe; intros H; apply list_elem_of_singleton in H; discriminate.
Qed.

Section TokenProperties.

Variable strip : string -> string.

Lemma ensure_valid_token_cases now probe seen_requests completed s :
  let r := ensure_valid_token strip now probe seen_requests completed s in
  (r.1.2 = true /\ r.1.1.2 = s.2 /\ (ERefreshToken ∉ (r.2)) /\
   ((load_auth_token strip now s).2 = true /\
    r.1.1.1 = (load_auth_token strip now s).1 /\
    r.2 = [EGet 10] /\
    (validate_token (auth_token r.1.1.1) probe).1 = true \/
    exists f content,
      s.2 = Some f /\ text f = Some content /\ (now - mtime f < 25 * 60)%Q /\
      auth_token r.1.1.1 = Some (strip content))) \/
  (exists tr,
     r = (extract_fresh_token seen_requests completed
            ((load_auth_token strip now s).1, s.2), tr ++ [ERefreshToken]) /\
     (is_token_valid now s.2 = false \/ exists f, s.2 = Some f /\ text f = None)).
Proof.
  intros r. subst r. unfold ensure_valid_token.
  destruct s as [st0 file]. cbn [snd].
  destruct (load_auth_token strip now (st0, file)) as [st loaded] eqn:Hload.
  cbn [fst snd].
  assert (Hextract : forall tr,
    (is_token_valid now file = false \/ exists f, file = Some f /\ text f = None) ->
    exists tr',
      (let '(s', ok) := extract_fresh_token seen_requests completed (st, file) in
       (s', ok, tr ++ [ERefreshToken])) =
      (extract_fresh_token seen_requests completed (st, file), tr' ++ [ERefreshToken]) /\
      (is_token_valid now file = false \/ exists f, file = Some f /\ text f = None)).
  { intros tr H. exists tr. split; [|exact H].
    destruct (extract_fresh_token seen_requests completed (st, file)). reflexivity. }
  assert (Hrecent : forall tr, ERefreshToken ∉ tr ->
    let r := if is_token_valid now file then
               match file with
               | Some {| text := Some content |} =>
                   ((set_auth_token (Some (strip content)) st, file), true, tr)
               | _ => (let '(s', ok) :=
                         extract_fresh_token seen_requests completed (st, file) in
                       (s', ok, tr ++ [ERefreshToken]))
               end
             else (let '(s', ok) :=
                     extract_fresh_token seen_requests completed (st, file) in
                   (s', ok, tr ++ [ERefreshToken])) in
    (r.1.2 = true /\ r.1.1.2 = file /\ (ERefreshToken ∉ (r.2)) /\
     exists f content,
       file = Some f /\ text f = Some content /\ (now - mtime f < 25 * 60)%Q /\
       auth_token r.1.1.1 = Some (strip content)) \/
    (exists tr',
       r = (extract_fresh_token seen_requests completed (st, file),
            tr' ++ [ERefreshToken]) /\
       (is_token_valid now file = false \/ exists f, file = Some f /\ text f = None))).
  { intros tr Htr. cbv zeta.
    destruct (is_token_valid now file) eqn:Hvalid; [|right; apply Hextract; auto].
    destruct file as [[mt [content|]]|].
    - left. cbn. repeat split; [exact Htr|].
      exists {| mtime := mt; text := Some content |}, content.
      repeat split. apply Qlt_bool_lt in Hvalid. exact Hvalid.
    - right. apply Hextract. right. eexists. split; reflexivity.
    - discriminate. }
  destruct loaded.
  - pose proof (validate_token_trace (auth_token st) probe) as Htr.
    destruct (validate_token (auth_token st) probe) as [valid tr] eqn:Hv.
    cbn [snd] in Htr. destruct valid; cbn [andb].
    + left. cbn [fst snd]. split; [reflexivity|]. split; [reflexivity|].
      split; [exact Htr|]. left. split; [reflexivity|]. split; [reflexivity|].
      rewrite Hv. split; [|reflexivity].
      revert Hv. unfold validate_token. destruct (truthy (auth_token st)); [|discriminate].
      destruct probe; congruence.
    + destruct (Hrecent tr Htr) as [(H1 & H2 & H3 & H4)|H]; [left|right; exact H].
      split; [exact H1|]. split; [exact H2|]. split; [exact H3|]. right. exact H4.
  - cbn [andb].
    destruct (Hrecent [] ltac:(intros H; inversion H)) as [(H1 & H2 & H3 & H4)|H];
      [left|right; exact H].
    split; [exact H1|]. split; [exact H2|]. split; [exact H3|]. right. exact H4.
Qed.



End TokenProperties.

(** ** Formatter *)

Lemma prefix_char c x rest :
  String.prefix (String c "") (String x rest) = bool_decide (c = x).
Proof.
  cbn. destruct (ascii_dec c x) as [->|Hne].
  - rewrite bool_decide_eq_true_2 by reflexivity. destruct rest; reflexivity.
  - rewrite bool_decide_eq_false_2 by exact Hne. reflexivity.
Qed.

Lemma str_contains_char_app c s t :
  str_contains (s +:+ t) (String c "") =
  str_contains s (String c "") || str_contains t (String c "").
Proof.
  induction s as [|x s IH]; [reflexivity|].
  change (String x s +:+ t) with (String x (s +:+ t)).
  cbn [str_contains]. rewrite !prefix_char, IH. apply orb_assoc.
Qed.

Lemma remove_spaces_no_space s :
  str_contains (Formatter.remove_spaces s) " " = false.
Proof.
  induction s as [|x s IH]; [reflexivity|].
  cbn [Formatter.remove_spaces]. destruct (Ascii.eqb x " ") eqn:E; [exact IH|].
  cbn [str_contains]. rewrite prefix_char, IH.
  rewrite bool_decide_eq_false_2; [reflexivity|].
  intros <-. rewrite Ascii.eqb_refl in E. discriminate.
Qed.



Lemma first_of_skips t x l1 l2 :
  attr_type x <> t \/ attr_type x ∈ attr_type <$> l1 ->
  Formatter.first_of t (l1 ++ x :: l2) = Formatter.first_of t (l1 ++ l2).
Proof.
  unfold Formatter.first_of. induction l1 as [|y l1 IH]; intros H.
  - cbn. destruct H as [H|H]; [|inversion H].
    apply String.eqb_neq in H. rewrite H. reflexivity.
  - cbn. destruct (String.eqb (attr_type y) t) eqn:Ey; [reflexivity|].
    apply IH. destruct H as [H|H]; [left; exact H|].
    rewrite fmap_cons in H. apply elem_of_cons in H as [H|H]; [|right; exact H].
    left. rewrite H. apply String.eqb_neq. exact Ey.
Qed.

Section FormatterProperties.

Variable fromisoformat : string -> option datetime.
Variable strftime : datetime -> string.


Lemma first_of_perm t l l' :
  l ≡ₚ l' -> NoDup (attr_type <$> l) ->
  Formatter.first_of t l = Formatter.first_of t l'.
Proof.
  unfold Formatter.first_of.
  induction 1 as [|x l l' Hp IH|x y l|l l' l'' H1 IH1 H2 IH2]; intros Hnd.
  - reflexivity.
  - cbn. destruct (String.eqb (attr_type x) t); [reflexivity|].
    apply IH. rewrite fmap_cons in Hnd. apply NoDup_cons in Hnd as [_ Hnd]. exact Hnd.
  - cbn. destruct (String.eqb (attr_type y) t) eqn:Ey,
                  (String.eqb (attr_type x) t) eqn:Ex; try reflexivity.
    apply String.eqb_eq in Ey, Ex. exfalso.
    rewrite !fmap_cons in Hnd. apply NoDup_cons in Hnd as [Hnotin _].
    apply Hnotin. rewrite Ey, <- Ex. apply list_elem_of_here.
  - rewrite IH1 by exact Hnd. apply IH2. rewrite <- H1. exact Hnd.
Qed.


End FormatterProperties.

(** ** The properties on the samples *)










